(** * The repository analysis pipeline of [backend/main.py]

    A shallow embedding of the analysis pipeline of the Vibe Reverse
    Engineer backend: the bounded recursive tree fetcher, the technology,
    pattern and recommendation heuristics, the complexity scorer and the
    background job that ties them together, followed by the properties of
    the specification that concern them. *)

From Stdlib Require Import List String Ascii ZArith QArith Qround Qpower Lia Lqa Bool.
From Stdlib Require Import DecimalString.
From stdpp Require Import gmap strings.
Import ListNotations.
Open Scope string_scope.

(** ** Python strings *)

Module Py.

(** [sub in s] on two strings: [sub] occurs in [s] as a contiguous run. *)
Fixpoint str_in (sub s : string) : bool :=
  if String.prefix sub s then true
  else match s with
       | EmptyString => false
       | String _ s' => str_in sub s'
       end.

(** [s.endswith(suffix)] *)
Definition endswith (s suffix : string) : bool :=
  let n := String.length s in
  let m := String.length suffix in
  if (m <=? n)%nat then String.eqb (String.substring (n - m) m s) suffix else false.

(** [s.lstrip('/')] *)
Fixpoint lstrip_slash (s : string) : string :=
  match s with
  | String "/" s' => lstrip_slash s'
  | _ => s
  end.

(** [s.rstrip('/')] *)
Fixpoint rstrip_slash (s : string) : string :=
  match s with
  | EmptyString => EmptyString
  | String c s' =>
      match rstrip_slash s' with
      | EmptyString => if Ascii.eqb c "/" then EmptyString else String c EmptyString
      | t => String c t
      end
  end.

(** [s.strip('/')] *)
Definition strip_slash (s : string) : string := rstrip_slash (lstrip_slash s).

(** [s.split('/')]: always at least one part. *)
Fixpoint split_slash (s : string) : list string :=
  match s with
  | EmptyString => [EmptyString]
  | String c s' =>
      if Ascii.eqb c "/" then EmptyString :: split_slash s'
      else match split_slash s' with
           | part :: parts => String c part :: parts
           | [] => [String c EmptyString]
           end
  end.

(** [str(n)] for an integer. *)
Definition str_of_int (n : Z) : string := NilZero.string_of_int (Z.to_int n).

End Py.

(** ** File trees

    The tree built by the fetcher is a Python [dict] from entry names to
    values.  A value is a string (the size descriptor of a file, or the
    text of a placeholder entry), the empty list [[]] stored for a directory
    whose listing could not be obtained, or a nested [dict]. A [dict] keeps
    its keys in insertion order and holds each key once. *)

Inductive pyvalue : Type :=
| Str (s : string)
| EmptyList
| Dict (d : pydict)
with pydict : Type :=
| DNil
| DCons (key : string) (value : pyvalue) (rest : pydict).

Scheme pyvalue_mut := Induction for pyvalue Sort Prop
with pydict_mut := Induction for pydict Sort Prop.

(** [d.items()] *)
Fixpoint items (d : pydict) : list (string * pyvalue) :=
  match d with
  | DNil => []
  | DCons k v rest => (k, v) :: items rest
  end.

(** [d.keys()] *)
Definition keys (d : pydict) : list string := map fst (items d).

(** [d[k] = v]: overwrite in place when the key is present, append otherwise. *)
Fixpoint dict_set (d : pydict) (k : string) (v : pyvalue) : pydict :=
  match d with
  | DNil => DCons k v DNil
  | DCons k' v' rest =>
      if String.eqb k' k then DCons k v rest else DCons k' v' (dict_set rest k v)
  end.

(** [d.get(k)] *)
Fixpoint dict_get (d : pydict) (k : string) : option pyvalue :=
  match d with
  | DNil => None
  | DCons k' v' rest => if String.eqb k' k then Some v' else dict_get rest k
  end.

(** ** [count_files] *)

Fixpoint count_files (structure : pydict) : nat :=
  match structure with
  | DNil => 0
  | DCons key value rest =>
      (match value with
       | Dict d => count_files d
       | _ => 1
       end) + count_files rest
  end.

(** ** Exceptions

    Fallible code returns a [result]; [Raise] carries the exception. *)

Inductive exn : Type :=
| ValueError (msg : string)
| TypeError
| AttributeError
| TransportError
| JSONDecodeError
| RecursionError.

Inductive result (A : Type) : Type :=
| Ok (a : A)
| Raise (e : exn).
Arguments Ok {A} a.
Arguments Raise {A} e.

Definition rbind {A B} (m : result A) (k : A -> result B) : result B :=
  match m with
  | Ok a => k a
  | Raise e => Raise e
  end.

Notation "x <- m ;; k" := (rbind m (fun x => k))
  (at level 100, m at next level, right associativity).

(** ** Python floats

    A [float] is an IEEE 754 binary64 number, represented here by the
    rational it denotes.  Every arithmetic operation computes the exact
    rational result and rounds it to the nearest number with a 53 bit
    significand, ties to the even significand.  The exponent range is not
    modelled: the values of the scorer are zero or lie between [0.05] and
    the number of files of a tree, far from underflow and overflow. *)

Module Float.

Open Scope Q_scope.

(** The exponent of the binade of a positive rational: [floor (log2 x)]. *)
Definition ilog2 (x : Q) : Z :=
  let d := (Z.log2 (Qnum x) - Z.log2 (Zpos (Qden x)))%Z in
  if Qle_bool (2 ^ d) x then d else (d - 1)%Z.

(** Nearest integer, ties to even. *)
Definition rint (x : Q) : Z :=
  let f := Qfloor x in
  match Qcompare (x - inject_Z f) (1 # 2) with
  | Lt => f
  | Gt => (f + 1)%Z
  | Eq => if Z.even f then f else (f + 1)%Z
  end.

(** Rounding of an exact result to binary64. *)
Definition round64 (x : Q) : Q :=
  match Qnum x with
  | Z0 => 0
  | Zpos _ =>
      let u := 2 ^ (ilog2 x - 52) in Qred (inject_Z (rint (x / u)) * u)
  | Zneg _ =>
      let u := 2 ^ (ilog2 (- x) - 52) in Qred (- (inject_Z (rint (- x / u)) * u))
  end.

(** [x + y] on floats. *)
Definition add (x y : Q) : Q := round64 (x + y).

(** [a / b] on two integers (true division, correctly rounded). *)
Definition truediv (a b : Z) : Q := round64 (inject_Z a / inject_Z b).

(** [min(a, b)]: the first argument unless the second is smaller. *)
Definition min (a b : Q) : Q := if Qle_bool a b then a else b.

(** [round(x, 1)]: the decimal with one fractional digit nearest to the
    exact value of [x], ties to the even digit, read back as a float. *)
Definition round1 (x : Q) : Q := round64 (inject_Z (rint (x * 10)) / 10).

(** A decimal literal [n / d] of the source text. *)
Definition literal (n : Z) (d : positive) : Q := round64 (n # d).

(** [sum(xs)] over floats: left to right from the integer [0]. *)
Definition sum (xs : list Q) : Q := fold_left add xs 0.

End Float.

(** ** Repository metadata

    The object returned by the hosting API for a repository, as far as the
    pipeline reads it.  A field is absent ([None]), JSON [null] or an
    integer; the language is absent or [null] ([None]) or a string. *)

Inductive jnumber : Type :=
| JNull
| JInt (n : Z).

Record repo_data : Type := {
  repo_language : option string;
  repo_size : option jnumber;
  repo_stargazers_count : option jnumber;
  repo_forks_count : option jnumber
}.

(** [repo_data.get(field, 0) > bound]; comparing [None] with an integer
    raises [TypeError]. *)
Definition get_gt (field : option jnumber) (bound : Z) : result bool :=
  match field with
  | None => Ok (0 >? bound)%Z
  | Some (JInt n) => Ok (n >? bound)%Z
  | Some JNull => Raise TypeError
  end.

(** [repo_data.get('language')] taken as a condition: a non-empty string. *)
Definition get_language (repo : repo_data) : option string :=
  match repo_language repo with
  | Some "" => None
  | l => l
  end.

(** ** Sets and lists of labels *)

(** [x in xs] *)
Definition mem (x : string) (xs : list string) : bool := existsb (String.eqb x) xs.

(** [s.add(x)]; the set is kept as the list of its elements in the order
    in which they were first added (Python leaves the order unspecified). *)
Definition set_add (x : string) (s : list string) : list string :=
  if mem x s then s else (s ++ [x])%list.

(** [s.update(xs)] *)
Definition set_update (xs : list string) (s : list string) : list string :=
  fold_left (fun acc x => set_add x acc) xs s.

(** [xs.append(x)] when [c] holds. *)
Definition append_if (c : bool) (x : string) (xs : list string) : list string :=
  if c then (xs ++ [x])%list else xs.

(** ** [detect_technologies] *)

(** The chain on file extensions of [scan_files]. *)
Definition detect_extension (name : string) (technologies : list string) : list string :=
  if Py.endswith name ".tsx" || Py.endswith name ".jsx" then
    set_update ["React"; "JavaScript"] technologies
  else if Py.endswith name ".ts" then set_add "TypeScript" technologies
  else if Py.endswith name ".vue" then set_add "Vue.js" technologies
  else if Py.endswith name ".py" then set_add "Python" technologies
  else if Py.endswith name ".java" then set_add "Java" technologies
  else if Py.endswith name ".go" then set_add "Go" technologies
  else if Py.endswith name ".rs" then set_add "Rust" technologies
  else if Py.endswith name ".php" then set_add "PHP" technologies
  else if Py.endswith name ".rb" then set_add "Ruby" technologies
  else if Py.endswith name ".swift" then set_add "Swift" technologies
  else if Py.endswith name ".kt" then set_add "Kotlin" technologies
  else if Py.endswith name ".dart" then set_add "Dart" technologies
  else technologies.

(** The chain on exact names of [scan_files]. *)
Definition detect_framework (name : string) (technologies : list string) : list string :=
  if String.eqb name "package.json" then set_update ["Node.js"; "npm"] technologies
  else if String.eqb name "Cargo.toml" then set_add "Rust" technologies
  else if String.eqb name "requirements.txt" || String.eqb name "pyproject.toml" then
    set_add "Python" technologies
  else if String.eqb name "pom.xml" || String.eqb name "build.gradle" then
    set_add "Java" technologies
  else if String.eqb name "Gemfile" then set_add "Ruby" technologies
  else if String.eqb name "composer.json" then set_add "PHP" technologies
  else if String.eqb name "pubspec.yaml" then set_update ["Dart"; "Flutter"] technologies
  else if String.eqb name "vite.config.ts" || String.eqb name "vite.config.js" then
    set_add "Vite" technologies
  else if String.eqb name "webpack.config.js" then set_add "Webpack" technologies
  else if String.eqb name "tailwind.config.js" then set_add "Tailwind CSS" technologies
  else if String.eqb name "next.config.js" then set_add "Next.js" technologies
  else if String.eqb name "nuxt.config.js" then set_add "Nuxt.js" technologies
  else if String.eqb name "angular.json" then set_add "Angular" technologies
  else if String.eqb name "vue.config.js" then set_add "Vue.js" technologies
  else if String.eqb name "svelte.config.js" then set_add "Svelte" technologies
  else if String.eqb name "Dockerfile" then set_add "Docker" technologies
  else if String.eqb name "docker-compose.yml" then set_add "Docker Compose" technologies
  else if String.eqb name ".github" then set_add "GitHub Actions" technologies
  else technologies.

(** [scan_files]: the closure updates the set [technologies]; here the set
    is passed in and returned. *)
Fixpoint scan_files (structure : pydict) (technologies : list string) : list string :=
  match structure with
  | DNil => technologies
  | DCons name content rest =>
      scan_files rest
        (match content with
         | Dict d => scan_files d technologies
         | _ => detect_framework name (detect_extension name technologies)
         end)
  end.

Definition detect_technologies (file_structure : pydict) (repo : repo_data) : list string :=
  let technologies :=
    match get_language repo with
    | Some l => set_add l []
    | None => []
    end in
  scan_files file_structure technologies.

(** ** [analyze_code_patterns] *)

(** [has_directory], the same closure in [analyze_code_patterns] and in
    [generate_recommendations]. *)
Definition has_directory (file_structure : pydict) (name : string) : bool :=
  existsb (fun key => Py.str_in name key) (keys file_structure).

Fixpoint search_structure (name : string) (structure : pydict) : bool :=
  match structure with
  | DNil => false
  | DCons key value rest =>
      if Py.str_in name key then true
      else if match value with
              | Dict d => search_structure name d
              | _ => false
              end
           then true
           else search_structure name rest
  end.

(** [has_file], the same closure in both functions. *)
Definition has_file (file_structure : pydict) (name : string) : bool :=
  search_structure name file_structure.

Definition analyze_code_patterns (file_structure : pydict) (technologies : list string)
  : list string :=
  let has_directory := has_directory file_structure in
  let has_file := has_file file_structure in
  let patterns := [] in
  let patterns := append_if (has_directory "components") "Component-based architecture" patterns in
  let patterns := append_if (has_directory "pages" || has_directory "views")
                    "Page-based routing" patterns in
  let patterns := append_if (has_directory "hooks") "Custom hooks pattern" patterns in
  let patterns := append_if (has_directory "services" || has_directory "api")
                    "Service layer architecture" patterns in
  let patterns := append_if (has_directory "utils" || has_directory "helpers")
                    "Utility functions organization" patterns in
  let patterns := append_if (has_directory "models" || has_directory "entities")
                    "Data modeling patterns" patterns in
  let patterns := append_if (has_directory "controllers") "MVC architecture" patterns in
  let patterns := append_if (has_directory "middleware") "Middleware pattern" patterns in
  let patterns := append_if (has_directory "store" || has_directory "redux")
                    "State management patterns" patterns in
  let patterns := append_if (has_directory "tests" || has_directory "__tests__")
                    "Test-driven development" patterns in
  let patterns := append_if (has_file "docker") "Containerization patterns" patterns in
  let patterns := append_if (has_file ".env") "Environment configuration" patterns in
  let patterns := append_if (has_file "README") "Documentation practices" patterns in
  let patterns := append_if (mem "TypeScript" technologies) "Type-safe development" patterns in
  let patterns := append_if (mem "React" technologies) "React functional components" patterns in
  let patterns := append_if (mem "Vue.js" technologies) "Vue composition patterns" patterns in
  let patterns := append_if (mem "Next.js" technologies) "Full-stack React framework" patterns in
  let patterns := append_if (mem "Tailwind CSS" technologies) "Utility-first CSS" patterns in
  patterns.

(** ** [generate_recommendations] *)

Definition generate_recommendations (file_structure : pydict) (technologies : list string)
  (repo : repo_data) : result (list string) :=
  let has_directory := has_directory file_structure in
  let has_file := has_file file_structure in
  let recommendations := [] in
  let recommendations :=
    append_if (negb (has_directory "test") && negb (has_directory "__tests__"))
      "Add unit tests to improve code reliability" recommendations in
  let recommendations :=
    append_if (negb (has_file "README")) "Add a comprehensive README.md file" recommendations in
  let recommendations :=
    append_if (negb (has_directory ".github")) "Set up GitHub Actions for CI/CD"
      recommendations in
  let recommendations :=
    append_if (negb (has_file ".env") && (mem "Node.js" technologies || mem "Python" technologies))
      "Add environment configuration files" recommendations in
  let recommendations :=
    append_if (negb (has_file "Dockerfile") && (2 <? length technologies)%nat)
      "Consider containerizing the application with Docker" recommendations in
  let recommendations :=
    append_if (mem "JavaScript" technologies && negb (mem "TypeScript" technologies))
      "Consider migrating to TypeScript for better type safety" recommendations in
  let recommendations :=
    if mem "JavaScript" technologies || mem "TypeScript" technologies then
      let recommendations :=
        append_if (negb (has_file "eslint")) "Add ESLint for code quality enforcement"
          recommendations in
      append_if (negb (has_file "prettier")) "Add Prettier for consistent code formatting"
        recommendations
    else recommendations in
  let recommendations :=
    append_if (has_file "package.json") "Regular dependency updates and security audits"
      recommendations in
  let recommendations :=
    append_if (mem "React" technologies) "Implement code splitting and lazy loading"
      recommendations in
  popular <- get_gt (repo_stargazers_count repo) 100 ;;
  Ok (append_if popular "Consider adding contributor guidelines" recommendations).

(** ** [calculate_complexity_score] *)

Definition advanced_tech : list string :=
  ["TypeScript"; "Rust"; "Go"; "Docker"; "Kubernetes"].

Definition calculate_complexity_score (file_structure : pydict) (technologies : list string)
  (repo : repo_data) : result Q :=
  let score := 1%Q in
  let file_count := count_files file_structure in
  let score := Float.add score (Float.min 3 (Float.truediv (Z.of_nat file_count) 20)) in
  let score := Float.add score
                 (Float.min 2 (Float.truediv (Z.of_nat (length technologies)) 5)) in
  large <- get_gt (repo_size repo) 1000 ;;
  let score := if large then Float.add score 1 else score in
  huge <- get_gt (repo_size repo) 10000 ;;
  let score := if huge then Float.add score 1 else score in
  starred <- get_gt (repo_stargazers_count repo) 10 ;;
  let score := if starred then Float.add score (1 # 2) else score in
  forked <- get_gt (repo_forks_count repo) 5 ;;
  let score := if forked then Float.add score (1 # 2) else score in
  let score :=
    Float.add score
      (Float.sum (map (fun _ => Float.literal 3 10)
                    (List.filter (fun tech => mem tech advanced_tech) technologies))) in
  Ok (Float.round1 (Float.min 10 score)).

(** ** The two degraded analyses *)

(** The tuple returned by [analyze_github_repository]: file structure,
    technologies, patterns, recommendations, complexity score. *)
Definition analysis : Type := (pydict * list string * list string * list string * Q)%type.

Definition create_minimal_analysis (repo : repo_data) : analysis :=
  (DCons "README.md" (Str "Repository content not accessible") DNil,
   match get_language repo with
   | Some l => [l]
   | None => ["Unknown"]
   end,
   ["Repository structure not analyzable"],
   ["Repository appears to be empty or private"; "Add public content for analysis"],
   1%Q).

Definition create_fallback_analysis (repo_name : string) : analysis :=
  (DCons "error" (Str "Unable to analyze repository structure") DNil,
   ["Unknown"],
   ["Analysis failed due to API limitations"],
   ["Repository could not be analyzed"; "Check repository accessibility"],
   1%Q).

(** ** The remote hosting API

    A listing entry carries the fields the fetcher reads.  A response has a
    status code and a body; decoding the body fails ([JInvalid]) or gives an
    object or a list of entries.  The client is a function of the requested
    URL; a request either raises a transport error or returns a response. *)

Record item : Type := {
  item_type : string;
  item_name : string;
  item_path : string;
  item_size : option Z
}.

Inductive json : Type :=
| JInvalid
| JObject (o : repo_data)
| JList (l : list item).

Record response : Type := {
  status_code : Z;
  body : json
}.

Inductive reply : Type :=
| Fails
| Replies (r : response).

Definition client : Type := string -> reply.

(** ** Computations that call the remote API

    A computation threads the log of the URLs requested so far and ends in
    a value or an exception. *)

Definition IO (A : Type) : Type := list string -> result A * list string.

Definition io_ret {A} (a : A) : IO A := fun log => (Ok a, log).

Definition io_raise {A} (e : exn) : IO A := fun log => (Raise e, log).

Definition io_bind {A B} (m : IO A) (k : A -> IO B) : IO B :=
  fun log =>
    match m log with
    | (Ok a, log') => k a log'
    | (Raise e, log') => (Raise e, log')
    end.

(** [try: m except: h] *)
Definition io_try {A} (m : IO A) (h : exn -> IO A) : IO A :=
  fun log =>
    match m log with
    | (Ok a, log') => (Ok a, log')
    | (Raise e, log') => h e log'
    end.

Definition io_lift {A} (r : result A) : IO A := fun log => (r, log).

Notation "x <~ m ;; k" := (io_bind m (fun x => k))
  (at level 100, m at next level, right associativity).

(** [await client.get(url)] *)
Definition http_get (c : client) (url : string) : IO response :=
  fun log =>
    (match c url with
     | Fails => Raise TransportError
     | Replies r => Ok r
     end, (log ++ [url])%list).

(** [response.json()] *)
Definition json_of (r : response) : IO json :=
  match body r with
  | JInvalid => io_raise JSONDecodeError
  | j => io_ret j
  end.

(** Use of a decoded body as a list ([contents[:20]]). *)
Definition as_list (j : json) : IO (list item) :=
  match j with
  | JList l => io_ret l
  | _ => io_raise TypeError
  end.

(** Use of a decoded body as an object ([repo_data.get(...)]). *)
Definition as_object (j : json) : IO repo_data :=
  match j with
  | JObject o => io_ret o
  | _ => io_raise AttributeError
  end.

(** ** [build_file_structure] *)

Definition api : string := "https://api.github.com/repos/".

Definition contents_url (owner repo_name path : string) : string :=
  api ++ owner ++ "/" ++ repo_name ++ "/contents/" ++ path.

(** [f"{item.get('size', 0)} bytes"] *)
Definition size_descriptor (i : item) : string :=
  Py.str_of_int (match item_size i with Some n => n | None => 0%Z end) ++ " bytes".

Section Entries.

(** The recursive call of [build_file_structure] on a nested listing. *)
Variable recurse : list item -> IO pydict.
Variable c : client.
Variables owner repo_name : string.

(** The loop over the entries of one listing; [structure] is the
    dictionary built so far. *)
Fixpoint build_entries (contents : list item) (structure : pydict) : IO pydict :=
  match contents with
  | [] => io_ret structure
  | item :: contents =>
      if String.eqb (item_type item) "dir" then
        structure <~
          io_try
            (dir_response <~ http_get c (contents_url owner repo_name (item_path item)) ;;
             if (status_code dir_response =? 200)%Z then
               dir_contents <~ json_of dir_response ;;
               match dir_contents with
               | JList l =>
                   sub <~ recurse (firstn 10 l) ;;
                   io_ret (dict_set structure (item_name item ++ "/") (Dict sub))
               | _ => io_ret (dict_set structure (item_name item ++ "/") EmptyList)
               end
             else io_ret (dict_set structure (item_name item ++ "/") EmptyList))
            (fun _ => io_ret (dict_set structure (item_name item ++ "/") EmptyList)) ;;
        build_entries contents structure
      else
        build_entries contents
          (dict_set structure (item_name item) (Str (size_descriptor item)))
  end.

End Entries.

(** [depth] is the number of nested calls the interpreter still allows; a
    call beyond it raises [RecursionError], which the handler around the
    nested fetch catches like any other exception. *)
Fixpoint build_file_structure (depth : nat) (c : client) (owner repo_name : string)
  (contents : list item) : IO pydict :=
  match depth with
  | O => io_raise RecursionError
  | S depth =>
      build_entries (build_file_structure depth c owner repo_name) c owner repo_name
        (firstn 20 contents) DNil
  end.

(** ** [analyze_github_repository] *)

(** The body of the [try] block. *)
Definition analyze_github_body (depth : nat) (c : client) (owner repo_name : string)
  : IO analysis :=
  repo_response <~ http_get c (api ++ owner ++ "/" ++ repo_name) ;;
  if negb (status_code repo_response =? 200)%Z then
    io_raise (ValueError ("Repository not found or not accessible: "
                          ++ Py.str_of_int (status_code repo_response)))
  else
    repo_json <~ json_of repo_response ;;
    contents_response <~ http_get c (api ++ owner ++ "/" ++ repo_name ++ "/contents") ;;
    if negb (status_code contents_response =? 200)%Z then
      repo <~ as_object repo_json ;;
      io_ret (create_minimal_analysis repo)
    else
      contents <~ json_of contents_response ;;
      contents <~ as_list contents ;;
      file_structure <~ build_file_structure depth c owner repo_name contents ;;
      repo <~ as_object repo_json ;;
      let technologies_detected := detect_technologies file_structure repo in
      let vibe_patterns := analyze_code_patterns file_structure technologies_detected in
      recommendations <~
        io_lift (generate_recommendations file_structure technologies_detected repo) ;;
      complexity_score <~
        io_lift (calculate_complexity_score file_structure technologies_detected repo) ;;
      io_ret (file_structure, technologies_detected, vibe_patterns, recommendations,
              complexity_score).

Definition analyze_github_repository (depth : nat) (c : client) (owner repo_name : string)
  : IO analysis :=
  io_try (analyze_github_body depth c owner repo_name)
    (fun _ => io_ret (create_fallback_analysis repo_name)).

(** ** Records and the in-memory stores *)

Module GitRepository.
Record t : Type := {
  id : option string;
  url : string;
  name : string;
  description : option string;
  language : option string;
  framework : option string;
  analysis_status : option string;
  created_at : option Z;
  updated_at : option Z
}.

(** [repository.analysis_status = status] *)
Definition with_status (status : string) (r : t) : t :=
  {| id := id r; url := url r; name := name r; description := description r;
     language := language r; framework := framework r;
     analysis_status := Some status;
     created_at := created_at r; updated_at := updated_at r |}.
End GitRepository.

Module RepositoryAnalysis.
Record t : Type := {
  id : string;
  repository_id : string;
  file_structure : pydict;
  technologies_detected : list string;
  complexity_score : Q;
  vibe_patterns : list string;
  recommendations : list string;
  created_at : Z
}.
End RepositoryAnalysis.

(** The two module-level dictionaries. *)
Record storage : Type := {
  repositories : gmap string GitRepository.t;
  analyses : gmap string RepositoryAnalysis.t
}.

(** [POST /repositories]: the record is stored with status [pending]; the
    identifier and the clock are supplied by the caller. *)
Definition create_repository (repository_id : string) (now : Z)
  (url name : string) (description : option string) (st : storage)
  : GitRepository.t * storage :=
  let repository :=
    {| GitRepository.id := Some repository_id;
       GitRepository.url := url;
       GitRepository.name := name;
       GitRepository.description := description;
       GitRepository.language := None;
       GitRepository.framework := None;
       GitRepository.analysis_status := Some "pending";
       GitRepository.created_at := Some now;
       GitRepository.updated_at := Some now |} in
  (repository,
   {| repositories := <[repository_id := repository]> (repositories st);
      analyses := analyses st |}).

(** [DELETE /repositories/{repository_id}]: [None] is the 404 answer.  The
    analyses whose [repository_id] matches are removed, then the record. *)
Definition delete_repository (repository_id : string) (st : storage) : option storage :=
  match repositories st !! repository_id with
  | None => None
  | Some _ =>
      Some {| repositories := delete repository_id (repositories st);
              analyses :=
                filter (fun kv => RepositoryAnalysis.repository_id kv.2 <> repository_id)
                  (analyses st) |}
  end.

(** [GET /analyses/repository/{repository_id}] *)
Definition get_analyses_by_repository (repository_id : string) (st : storage)
  : list RepositoryAnalysis.t :=
  List.filter (fun a => String.eqb (RepositoryAnalysis.repository_id a) repository_id)
    (map snd (map_to_list (analyses st))).

(** ** [analyze_repository] *)

(** The outcome of [urlparse] on the repository URL, as far as it is read. *)
Record ParseResult : Type := {
  netloc : string;
  path : string
}.

(** [if repository_id in repositories:
       repositories[repository_id].analysis_status = status] *)
Definition set_status (repository_id status : string) (st : storage) : storage :=
  {| repositories := alter (GitRepository.with_status status) repository_id (repositories st);
     analyses := analyses st |}.

(** The guard on the parsed URL and the extraction of owner and name. *)
Definition parse_reference (parsed_url : ParseResult) : result (string * string) :=
  if negb (Py.str_in "github.com" (netloc parsed_url)) then
    Raise (ValueError "Only GitHub repositories are supported")
  else
    let path_parts := Py.split_slash (Py.strip_slash (path parsed_url)) in
    if (length path_parts <? 2)%nat then
      Raise (ValueError "Invalid GitHub repository URL")
    else
      Ok (nth 0 path_parts "", nth 1 path_parts "").

(** [analyses[analysis_id] = analysis] *)
Definition record_analysis (analysis_id repository_id : string) (now : Z) (a : analysis)
  (st : storage) : storage :=
  let '(file_structure, technologies_detected, vibe_patterns, recommendations,
        complexity_score) := a in
  {| repositories := repositories st;
     analyses :=
       <[analysis_id :=
           {| RepositoryAnalysis.id := analysis_id;
              RepositoryAnalysis.repository_id := repository_id;
              RepositoryAnalysis.file_structure := file_structure;
              RepositoryAnalysis.technologies_detected := technologies_detected;
              RepositoryAnalysis.complexity_score := complexity_score;
              RepositoryAnalysis.vibe_patterns := vibe_patterns;
              RepositoryAnalysis.recommendations := recommendations;
              RepositoryAnalysis.created_at := now |}]> (analyses st) |}.

Section Run.

(** The remote API, the interpreter's remaining call depth, the fresh
    identifier [uuid4()] and the clock [datetime.now()] of the run. *)
Variable c : client.
Variable depth : nat.
Variable analysis_id : string.
Variable now : Z.

(** What the other request handlers do to the stores while the task is
    suspended on the remote fetch, its only suspension. *)
Variable concurrent : storage -> storage.

(** The background task.  [parsed_url] is the outcome of [urlparse] on the
    URL of the record; the result is the stores and the request log at the
    end of the task. *)
Definition analyze_repository (repository_id : string) (parsed_url : result ParseResult)
  (st : storage) (log : list string) : storage * list string :=
  let st := set_status repository_id "analyzing" st in
  match parsed_url <- parsed_url ;; parse_reference parsed_url with
  | Raise _ => (set_status repository_id "failed" st, log)
  | Ok (owner, repo_name) =>
      let '(outcome, log) := analyze_github_repository depth c owner repo_name log in
      let st := concurrent st in
      match outcome with
      | Raise _ => (set_status repository_id "failed" st, log)
      | Ok a =>
          let st := record_analysis analysis_id repository_id now a st in
          (set_status repository_id "completed" st, log)
      end
  end.

End Run.

(** No other handler touches the stores during the run. *)
Definition undisturbed : storage -> storage := fun st => st.

(** The [DELETE] handler for [repository_id] is served while the task is
    suspended. *)
Definition deleted_meanwhile (repository_id : string) : storage -> storage :=
  fun st =>
    match delete_repository repository_id st with
    | Some st' => st'
    | None => st
    end.

(** The status of a job as a client reads it. *)
Definition status_of (repository_id : string) (st : storage) : option string :=
  r ← repositories st !! repository_id; GitRepository.analysis_status r.

(** ** Observations on trees and listings *)

(** File entries at any depth: the entries whose value is a string. *)
Fixpoint file_leaves (structure : pydict) : nat :=
  match structure with
  | DNil => 0
  | DCons _ value rest =>
      (match value with
       | Str _ => 1
       | EmptyList => 0
       | Dict d => file_leaves d
       end) + file_leaves rest
  end.

(** Directory entries at any depth that hold the empty list. *)
Fixpoint placeholders (structure : pydict) : nat :=
  match structure with
  | DNil => 0
  | DCons _ value rest =>
      (match value with
       | Str _ => 0
       | EmptyList => 1
       | Dict d => placeholders d
       end) + placeholders rest
  end.

(** Every dictionary nested in [structure], at any depth, has at most [n]
    keys. *)
Fixpoint nested_keys_le (n : nat) (structure : pydict) : bool :=
  match structure with
  | DNil => true
  | DCons _ value rest =>
      (match value with
       | Dict d => (length (keys d) <=? n)%nat && nested_keys_le n d
       | _ => true
       end) && nested_keys_le n rest
  end.

(** An entry that is not a nested dictionary is stored under the key [k],
    at any depth. *)
Fixpoint has_plain_entry (k : string) (structure : pydict) : bool :=
  match structure with
  | DNil => false
  | DCons key value rest =>
      (match value with
       | Dict d => has_plain_entry k d
       | _ => String.eqb key k
       end) || has_plain_entry k rest
  end.

(** The key under which the fetcher stores an entry. *)
Definition entry_key (i : item) : string :=
  if String.eqb (item_type i) "dir" then item_name i ++ "/" else item_name i.

(** The nested listing of a directory entry cannot be obtained: the request
    raises, answers with another status than 200, or its body does not
    decode to a list. *)
Definition listing_unavailable (c : client) (owner repo_name : string) (i : item) : bool :=
  match c (contents_url owner repo_name (item_path i)) with
  | Fails => true
  | Replies r =>
      negb (status_code r =? 200)%Z
      || match body r with
         | JList _ => false
         | _ => true
         end
  end.

(** One turn of the loop of [build_file_structure], read as a function: the
    value stored under the key of an entry and the request log after it. *)
Definition entry_value (recurse : list item -> IO pydict) (c : client)
  (owner repo_name : string) (i : item) (log : list string) : pyvalue * list string :=
  if String.eqb (item_type i) "dir" then
    let log1 := (log ++ [contents_url owner repo_name (item_path i)])%list in
    match c (contents_url owner repo_name (item_path i)) with
    | Fails => (EmptyList, log1)
    | Replies r =>
        if (status_code r =? 200)%Z then
          match body r with
          | JList l =>
              match recurse (firstn 10 l) log1 with
              | (Ok sub, log2) => (Dict sub, log2)
              | (Raise _, log2) => (EmptyList, log2)
              end
          | _ => (EmptyList, log1)
          end
        else (EmptyList, log1)
    end
  else (Str (size_descriptor i), log).

(** [s] contains [sub]: some text, then [sub], then some text. *)
Definition substring_of (sub s : string) : Prop :=
  exists before after, s = before ++ sub ++ after.

(** ** The specification's reading of two conditions *)

(** The specification's directory-name predicate: a key of a directory
    entry, anywhere in the tree, contains the name. *)
Fixpoint spec_has_directory (name : string) (structure : pydict) : bool :=
  match structure with
  | DNil => false
  | DCons key value rest =>
      (match value with
       | Str _ => false
       | EmptyList => Py.str_in name key
       | Dict d => Py.str_in name key || spec_has_directory name d
       end) || spec_has_directory name rest
  end.

(** The specification's supported host: the network location is GitHub's
    domain or one of its subdomains. *)
Definition spec_supported_host (netloc : string) : bool :=
  String.eqb netloc "github.com" || Py.endswith netloc ".github.com".

(** The specification's well-formed reference: a supported host and a path
    with an owner and a repository name. *)
Definition spec_well_formed (parsed_url : ParseResult) : bool :=
  spec_supported_host (netloc parsed_url)
  && (2 <=? length (Py.split_slash (Py.strip_slash (path parsed_url))))%nat.

(** ** Sample data *)

(** A remote API that cannot be reached. *)
Definition unreachable : client := fun _ => Fails.

(** A remote API that serves one repository, with an empty listing and a
    star count of [null]. *)
Definition null_stars : client :=
  fun url =>
    if String.eqb url "https://api.github.com/repos/octo/demo" then
      Replies {| status_code := 200;
                 body := JObject {| repo_language := Some "Python";
                                    repo_size := Some (JInt 12);
                                    repo_stargazers_count := Some JNull;
                                    repo_forks_count := Some (JInt 0) |} |}
    else Replies {| status_code := 200; body := JList [] |}.

(** A remote API that answers every request with 404. *)
Definition not_found : client :=
  fun _ => Replies {| status_code := 404; body := JInvalid |}.

(** The stores after the registration of one repository. *)
Definition one_registered : storage :=
  snd (create_repository "r1" 0 "https://github.com/octo/demo" "demo" None
         {| repositories := ∅; analyses := ∅ |}).

Definition octo_demo : ParseResult := {| netloc := "github.com"; path := "/octo/demo" |}.

(** Metadata without any of the fields read. *)
Definition bare : repo_data :=
  {| repo_language := None; repo_size := None;
     repo_stargazers_count := None; repo_forks_count := None |}.

(** A small front-end project. *)
Definition front_end : pydict :=
  DCons "src/" (Dict (DCons "App.tsx" (Str "840 bytes") DNil))
    (DCons "package.json" (Str "512 bytes")
       (DCons "tailwind.config.js" (Str "96 bytes")
          (DCons "tests/" (Dict DNil) DNil))).

(** A listing of [n] files [f0], [f1], ... *)
Definition plain_listing (n : nat) : list item :=
  map (fun k => {| item_type := "file";
                   item_name := "f" ++ Py.str_of_int (Z.of_nat k);
                   item_path := "f" ++ Py.str_of_int (Z.of_nat k);
                   item_size := Some (Z.of_nat k) |})
    (seq 0 n).

(** ** The remaining request handlers *)

(** [GET /repositories] *)
Definition get_repositories (st : storage) : list GitRepository.t :=
  map snd (map_to_list (repositories st)).

(** [GET /repositories/{repository_id}]: [None] is the 404 answer. *)
Definition get_repository (repository_id : string) (st : storage) : option GitRepository.t :=
  repositories st !! repository_id.

(** [PUT /repositories/{repository_id}]: [None] is the 404 answer.  The
    URL, the name and the description are replaced and the update time is
    set; the other fields of the record stay. *)
Definition update_repository (repository_id : string) (now : Z) (url name : string)
  (description : option string) (st : storage) : option (GitRepository.t * storage) :=
  match repositories st !! repository_id with
  | None => None
  | Some repository =>
      let repository :=
        {| GitRepository.id := GitRepository.id repository;
           GitRepository.url := url;
           GitRepository.name := name;
           GitRepository.description := description;
           GitRepository.language := GitRepository.language repository;
           GitRepository.framework := GitRepository.framework repository;
           GitRepository.analysis_status := GitRepository.analysis_status repository;
           GitRepository.created_at := GitRepository.created_at repository;
           GitRepository.updated_at := Some now |} in
      Some (repository,
            {| repositories := <[repository_id := repository]> (repositories st);
               analyses := analyses st |})
  end.

(** [GET /analyses] *)
Definition get_analyses (st : storage) : list RepositoryAnalysis.t :=
  map snd (map_to_list (analyses st)).

(** [GET /analyses/{analysis_id}]: [None] is the 404 answer. *)
Definition get_analysis (analysis_id : string) (st : storage) : option RepositoryAnalysis.t :=
  analyses st !! analysis_id.

(** The [PUT] handler for [repository_id] is served while the task is
    suspended. *)
Definition updated_meanwhile (repository_id : string) (now : Z) (url name : string)
  (description : option string) : storage -> storage :=
  fun st =>
    match update_repository repository_id now url name description st with
    | Some (_, st') => st'
    | None => st
    end.

(** ** Further observations *)

(** The keys of a tree at every depth. *)
Fixpoint all_keys (structure : pydict) : list string :=
  match structure with
  | DNil => []
  | DCons key value rest =>
      (key :: match value with
              | Dict d => all_keys d
              | _ => []
              end) ++ all_keys rest
  end.

(** An entry that is not a nested dictionary has a key ending in [suffix],
    at any depth. *)
Fixpoint has_plain_suffix (suffix : string) (structure : pydict) : bool :=
  match structure with
  | DNil => false
  | DCons key value rest =>
      (match value with
       | Dict d => has_plain_suffix suffix d
       | _ => Py.endswith key suffix
       end) || has_plain_suffix suffix rest
  end.

(** An entry that is not a nested dictionary has a key satisfying [P], at
    any depth. *)
Fixpoint has_plain_where (P : string -> bool) (structure : pydict) : bool :=
  match structure with
  | DNil => false
  | DCons key value rest =>
      (match value with
       | Dict d => has_plain_where P d
       | _ => P key
       end) || has_plain_where P rest
  end.

(** No dictionary nested in [structure] holds a key twice. *)
Fixpoint nested_keys_unique (structure : pydict) : Prop :=
  match structure with
  | DNil => True
  | DCons _ value rest =>
      match value with
      | Dict d => NoDup (keys d) /\ nested_keys_unique d
      | _ => True
      end /\ nested_keys_unique rest
  end.

(** The labels of [analyze_code_patterns], in the order of its checks. *)
Definition pattern_labels : list string :=
  ["Component-based architecture"; "Page-based routing"; "Custom hooks pattern";
   "Service layer architecture"; "Utility functions organization";
   "Data modeling patterns"; "MVC architecture"; "Middleware pattern";
   "State management patterns"; "Test-driven development";
   "Containerization patterns"; "Environment configuration";
   "Documentation practices"; "Type-safe development"; "React functional components";
   "Vue composition patterns"; "Full-stack React framework"; "Utility-first CSS"].

(** A metadata field that is JSON [null]. *)
Definition is_null (field : option jnumber) : bool :=
  match field with
  | Some JNull => true
  | _ => false
  end.

(** A remote API that serves the metadata of one Go repository and refuses
    its listing. *)
Definition listing_refused : client :=
  fun url =>
    if String.eqb url "https://api.github.com/repos/octo/demo" then
      Replies {| status_code := 200;
                 body := JObject {| repo_language := Some "Go"; repo_size := None;
                                    repo_stargazers_count := None;
                                    repo_forks_count := None |} |}
    else Replies {| status_code := 403; body := JInvalid |}.

(** The record that [analyze_repository] builds from the tuple handed back
    by [analyze_github_repository]. *)
Definition stored_analysis (analysis_id repository_id : string) (now : Z) (a : analysis)
  : RepositoryAnalysis.t :=
  let '(file_structure, technologies_detected, vibe_patterns, recommendations,
        complexity_score) := a in
  {| RepositoryAnalysis.id := analysis_id;
     RepositoryAnalysis.repository_id := repository_id;
     RepositoryAnalysis.file_structure := file_structure;
     RepositoryAnalysis.technologies_detected := technologies_detected;
     RepositoryAnalysis.complexity_score := complexity_score;
     RepositoryAnalysis.vibe_patterns := vibe_patterns;
     RepositoryAnalysis.recommendations := recommendations;
     RepositoryAnalysis.created_at := now |}.

(** The specification's technology list for a repository reported as not
    found: the language of the answer's metadata if it reports one,
    [Unknown] otherwise. *)
Definition spec_unavailable_technologies (answer : json) : list string :=
  match answer with
  | JObject repo =>
      match get_language repo with
      | Some l => [l]
      | None => ["Unknown"]
      end
  | _ => ["Unknown"]
  end.

(** A remote API that answers every request with 404 and a body that
    reports the language Go. *)
Definition not_found_go : client :=
  fun _ =>
    Replies {| status_code := 404;
               body := JObject {| repo_language := Some "Go"; repo_size := None;
                                  repo_stargazers_count := None;
                                  repo_forks_count := None |} |}.

(** A remote API that serves the metadata and the root listing of one
    Python repository, a directory [docs] and a file [main.py], and cannot
    be reached for the listing of [docs]. *)
Definition docs_unlistable : client :=
  fun url =>
    if String.eqb url "https://api.github.com/repos/octo/demo" then
      Replies {| status_code := 200;
                 body := JObject {| repo_language := Some "Python";
                                    repo_size := Some (JInt 12);
                                    repo_stargazers_count := Some (JInt 3);
                                    repo_forks_count := Some (JInt 0) |} |}
    else if String.eqb url "https://api.github.com/repos/octo/demo/contents" then
      Replies {| status_code := 200;
                 body := JList [ {| item_type := "dir"; item_name := "docs";
                                    item_path := "docs"; item_size := None |};
                                 {| item_type := "file"; item_name := "main.py";
                                    item_path := "main.py"; item_size := Some 42%Z |} ] |}
    else Fails.

(** The URLs that [build_file_structure] hands to the client, in the order
    of the calls: for each directory among the first twenty entries its
    listing URL, followed, when that request is answered with status 200 and
    a list, by the URLs of the nested call on the first ten entries of that
    list. *)
Fixpoint requested (depth : nat) (c : client) (owner repo_name : string)
  (contents : list item) : list string :=
  match depth with
  | O => []
  | S depth =>
      flat_map
        (fun i =>
           if String.eqb (item_type i) "dir" then
             let url := contents_url owner repo_name (item_path i) in
             url :: match c url with
                    | Fails => []
                    | Replies r =>
                        if (status_code r =? 200)%Z then
                          match body r with
                          | JList l => requested depth c owner repo_name (firstn 10 l)
                          | _ => []
                          end
                        else []
                    end
           else [])
        (firstn 20 contents)
  end.

(** * Properties *)

(** ** Strings *)

Lemma append_cons (ch : ascii) (a b : string) : String ch a ++ b = String ch (a ++ b).
Proof. reflexivity. Qed.

Lemma append_nil (b : string) : "" ++ b = b.
Proof. reflexivity. Qed.

Lemma prefix_spec (a s : string) :
  String.prefix a s = true <-> exists after, s = a ++ after.
Proof.
  revert s. induction a as [|ch a IH]; intros s; simpl.
  - destruct s; split; intros; eauto.
  - destruct s as [|ch' s]; simpl.
    + split; [discriminate | intros [after H]; discriminate].
    + destruct (Ascii.ascii_dec ch ch') as [->|Hne].
      * rewrite IH. split; intros [after H]; exists after.
        -- rewrite append_cons. congruence.
        -- rewrite append_cons in H. congruence.
      * split; [discriminate | intros [after H]; rewrite append_cons in H; congruence].
Qed.

Lemma str_in_unfold (sub s : string) :
  Py.str_in sub s =
  if String.prefix sub s then true
  else match s with
       | EmptyString => false
       | String _ s' => Py.str_in sub s'
       end.
Proof. destruct s; reflexivity. Qed.

Lemma str_in_spec (sub s : string) :
  Py.str_in sub s = true <-> substring_of sub s.
Proof.
  unfold substring_of. induction s as [|ch s IH]; rewrite str_in_unfold.
  - destruct (String.prefix sub "") eqn:Hp.
    + apply prefix_spec in Hp as [after Hp]. split; [|reflexivity].
      intros _. exists "", after. exact Hp.
    + split; [discriminate|]. intros (before & after & H).
      destruct before; [|discriminate]. rewrite append_nil in H.
      assert (String.prefix sub "" = true) by (apply prefix_spec; eauto). congruence.
  - destruct (String.prefix sub (String ch s)) eqn:Hp.
    + apply prefix_spec in Hp as [after Hp]. split; [|reflexivity].
      intros _. exists "", after. exact Hp.
    + rewrite IH. split.
      * intros (before & after & ->). exists (String ch before), after. reflexivity.
      * intros (before & after & H). destruct before as [|ch' before].
        -- rewrite append_nil in H.
           assert (String.prefix sub (String ch s) = true) by (apply prefix_spec; eauto).
           congruence.
        -- rewrite append_cons in H. injection H as _ ->. eauto.
Qed.

(** ** Dictionaries *)

Lemma dict_get_set_eq (d : pydict) (k : string) (v : pyvalue) :
  dict_get (dict_set d k v) k = Some v.
Proof.
  induction d as [|k' v' rest IH]; simpl.
  - now rewrite String.eqb_refl.
  - destruct (String.eqb k' k) eqn:E; simpl.
    + now rewrite String.eqb_refl.
    + now rewrite E.
Qed.

Lemma dict_get_set_ne (d : pydict) (k k' : string) (v : pyvalue) :
  k <> k' -> dict_get (dict_set d k v) k' = dict_get d k'.
Proof.
  intros Hne. induction d as [|k0 v0 rest IH]; simpl.
  - apply String.eqb_neq in Hne. now rewrite Hne.
  - destruct (String.eqb k0 k) eqn:E; simpl.
    + apply String.eqb_eq in E. subst k0.
      apply String.eqb_neq in Hne. now rewrite Hne.
    + now rewrite IH.
Qed.

Lemma keys_dict_set_length (d : pydict) (k : string) (v : pyvalue) :
  (length (keys (dict_set d k v)) <= S (length (keys d)))%nat.
Proof.
  unfold keys. induction d as [|k' v' rest IH]; simpl.
  - lia.
  - destruct (String.eqb k' k); simpl; lia.
Qed.

Lemma nested_keys_le_dict_set (n : nat) (d : pydict) (k : string) (v : pyvalue) :
  nested_keys_le n d = true ->
  match v with
  | Dict sub => (length (keys sub) <= n)%nat /\ nested_keys_le n sub = true
  | _ => True
  end ->
  nested_keys_le n (dict_set d k v) = true.
Proof.
  intros Hd Hv.
  assert (Hhead : (match v with
                   | Dict sub => (length (keys sub) <=? n)%nat && nested_keys_le n sub
                   | _ => true
                   end) = true).
  { destruct v as [s| |sub]; try reflexivity. destruct Hv as [Hlen Hsub].
    apply andb_true_intro. split; [now apply Nat.leb_le | exact Hsub]. }
  induction d as [|k' v' rest IH]; simpl in *.
  - now rewrite Hhead.
  - apply andb_prop in Hd as [Hv' Hrest].
    destruct (String.eqb k' k); simpl.
    + now rewrite Hhead, Hrest.
    + now rewrite Hv', IH.
Qed.

(** ** Counting files *)

(** Every entry that is not a nested dictionary counts for one file,
    whether it is a file or the placeholder of a directory. *)
Lemma count_files_leaves_placeholders (structure : pydict) :
  count_files structure = (file_leaves structure + placeholders structure)%nat.
Proof.
  induction structure as [s| |d IHd| |key value IHv rest IHrest]
    using pydict_mut
    with (P := fun v => match v with
                        | Dict d => count_files d = (file_leaves d + placeholders d)%nat
                        | _ => True
                        end); try exact I; try assumption; try reflexivity.
  simpl. rewrite IHrest. destruct value as [s| |d]; simpl in *; lia.
Qed.

(** ** The fetcher *)

Section Fetcher.

Variable recurse : list item -> IO pydict.
Variable c : client.
Variables owner repo_name : string.

Lemma build_entries_cons (i : item) (contents : list item) (structure : pydict)
  (log : list string) :
  build_entries recurse c owner repo_name (i :: contents) structure log =
  let '(v, log') := entry_value recurse c owner repo_name i log in
  build_entries recurse c owner repo_name contents (dict_set structure (entry_key i) v) log'.
Proof.
  unfold entry_value, entry_key. simpl.
  destruct (String.eqb (item_type i) "dir"); [|reflexivity].
  unfold io_bind, io_try, http_get, json_of, io_ret, io_raise.
  destruct (c (contents_url owner repo_name (item_path i))) as [|r]; [reflexivity|].
  destruct (status_code r =? 200)%Z; [|reflexivity].
  destruct (body r) as [|o|l]; try reflexivity.
  destruct (recurse (firstn 10 l) _) as [[sub|e] log2]; reflexivity.
Qed.

(** The loop never raises: every failure of a nested fetch is caught. *)
Lemma build_entries_total (contents : list item) (structure : pydict) (log : list string) :
  exists t log', build_entries recurse c owner repo_name contents structure log = (Ok t, log').
Proof.
  revert structure log. induction contents as [|i contents IH]; intros structure log.
  - simpl. unfold io_ret. eauto.
  - rewrite build_entries_cons.
    destruct (entry_value recurse c owner repo_name i log) as [v log1]. apply IH.
Qed.

Lemma build_entries_app (l1 l2 : list item) (structure : pydict) (log : list string) :
  build_entries recurse c owner repo_name (l1 ++ l2) structure log =
  match build_entries recurse c owner repo_name l1 structure log with
  | (Ok t, log') => build_entries recurse c owner repo_name l2 t log'
  | (Raise e, log') => (Raise e, log')
  end.
Proof.
  revert structure log. induction l1 as [|i l1 IH]; intros structure log.
  - reflexivity.
  - rewrite <- app_comm_cons, !build_entries_cons.
    destruct (entry_value recurse c owner repo_name i log) as [v log1]. apply IH.
Qed.

(** A key that no entry of the listing writes keeps its value. *)
Lemma build_entries_get_other (k : string) (contents : list item) (structure : pydict)
  (log : list string) (t : pydict) (log' : list string) :
  (forall j, In j contents -> entry_key j <> k) ->
  build_entries recurse c owner repo_name contents structure log = (Ok t, log') ->
  dict_get t k = dict_get structure k.
Proof.
  revert structure log. induction contents as [|i contents IH]; intros structure log Hk H.
  - simpl in H. unfold io_ret in H. congruence.
  - rewrite build_entries_cons in H.
    destruct (entry_value recurse c owner repo_name i log) as [v log1].
    rewrite (IH _ _ (fun j Hj => Hk j (or_intror Hj)) H).
    apply dict_get_set_ne, Hk. now left.
Qed.

(** A directory whose listing cannot be obtained is stored as the empty
    list. *)
Lemma entry_value_unavailable (i : item) (log : list string) :
  item_type i = "dir" ->
  listing_unavailable c owner repo_name i = true ->
  entry_value recurse c owner repo_name i log =
  (EmptyList, (log ++ [contents_url owner repo_name (item_path i)])%list).
Proof.
  intros Hdir Hun. unfold entry_value, listing_unavailable in *. rewrite Hdir. simpl.
  destruct (c (contents_url owner repo_name (item_path i))) as [|r]; [reflexivity|].
  destruct (status_code r =? 200)%Z; [|reflexivity].
  destruct (body r); try reflexivity. discriminate.
Qed.

(** Fan-out of one level: each entry adds at most one key, and a nested
    dictionary is the result of the recursive call on at most ten
    entries. *)
Lemma build_entries_bounds (contents : list item) (structure : pydict) (log : list string) :
  (forall l lg sub lg', recurse (firstn 10 l) lg = (Ok sub, lg') ->
     (length (keys sub) <= 10)%nat /\ nested_keys_le 10 sub = true) ->
  nested_keys_le 10 structure = true ->
  exists t log',
    build_entries recurse c owner repo_name contents structure log = (Ok t, log')
    /\ (length (keys t) <= length (keys structure) + length contents)%nat
    /\ nested_keys_le 10 t = true.
Proof.
  intros Hrec. revert structure log.
  induction contents as [|i contents IH]; intros structure log Hs.
  - simpl. unfold io_ret. exists structure, log. repeat split; [lia | exact Hs].
  - rewrite build_entries_cons.
    destruct (entry_value recurse c owner repo_name i log) as [v log1] eqn:Hv.
    assert (Hgood : match v with
                    | Dict sub => (length (keys sub) <= 10)%nat /\ nested_keys_le 10 sub = true
                    | _ => True
                    end).
    { unfold entry_value in Hv.
      destruct (String.eqb (item_type i) "dir"); [|injection Hv as <- _; exact I].
      destruct (c (contents_url owner repo_name (item_path i))) as [|r];
        [injection Hv as <- _; exact I|].
      destruct (status_code r =? 200)%Z; [|injection Hv as <- _; exact I].
      destruct (body r) as [|o|l]; try (injection Hv as <- _; exact I).
      destruct (recurse (firstn 10 l) _) as [[sub|e] log2] eqn:Hr;
        injection Hv as <- _; [|exact I].
      eapply Hrec, Hr. }
    destruct (IH (dict_set structure (entry_key i) v) log1
                (nested_keys_le_dict_set _ _ _ _ Hs Hgood)) as (t & log' & Hb & Hlen & Hn).
    exists t, log'. repeat split; [exact Hb | | exact Hn].
    pose proof (keys_dict_set_length structure (entry_key i) v). simpl. lia.
Qed.

End Fetcher.

Lemma build_file_structure_nested_bounds (depth : nat) (c : client) (owner repo_name : string)
  (l : list item) (lg : list string) (sub : pydict) (lg' : list string) :
  build_file_structure depth c owner repo_name (firstn 10 l) lg = (Ok sub, lg') ->
  (length (keys sub) <= 10)%nat /\ nested_keys_le 10 sub = true.
Proof.
  revert l lg sub lg'. induction depth as [|depth IH]; intros l lg sub lg' H.
  - discriminate.
  - simpl in H.
    destruct (build_entries_bounds (build_file_structure depth c owner repo_name)
                c owner repo_name (firstn 20 (firstn 10 l)) DNil lg IH eq_refl)
      as (t & log' & Hb & Hlen & Hn).
    rewrite Hb in H. injection H as <- <-. split; [|exact Hn].
    pose proof (firstn_le_length 10 l) as H10.
    change (length (keys DNil)) with 0%nat in Hlen.
    rewrite length_firstn in Hlen. lia.
Qed.

Lemma placeholders_get (t : pydict) (k : string) :
  dict_get t k = Some EmptyList -> (1 <= placeholders t)%nat.
Proof.
  induction t as [|k' v rest IH]; simpl; [discriminate|].
  destruct (String.eqb k' k).
  - intros [= ->]. lia.
  - intros H. specialize (IH H). lia.
Qed.

(** C6. Whatever the remote API lists, the tree built by the fetcher has at
    most 20 keys at its top level and every dictionary nested in it, at any
    depth, has at most 10 keys; the fetcher returns such a tree for every
    listing, also one of 50 entries. *)
Theorem C6_fan_out_bound (depth : nat) (c : client) (owner repo_name : string)
  (contents : list item) (log : list string) :
  exists t log',
    build_file_structure (S depth) c owner repo_name contents log = (Ok t, log')
    /\ (length (keys t) <= 20)%nat
    /\ nested_keys_le 10 t = true.
Proof.
  simpl.
  destruct (build_entries_bounds (build_file_structure depth c owner repo_name)
              c owner repo_name (firstn 20 contents) DNil log
              (build_file_structure_nested_bounds depth c owner repo_name) eq_refl)
    as (t & log' & Hb & Hlen & Hn).
  exists t, log'. repeat split; [exact Hb | | exact Hn].
  pose proof (firstn_le_length 20 contents).
  change (length (keys DNil)) with 0%nat in Hlen. lia.
Qed.

(** Fifty entries at the top level: the first twenty are kept and no
    request is sent for them. *)
Example fifty_entries :
  let '(outcome, log) :=
    build_file_structure 1 unreachable "octo" "demo" (plain_listing 50) [] in
  (t <- outcome ;; Ok (length (keys t), dict_get t "f19", dict_get t "f20"))
  = Ok (20%nat, Some (Str "19 bytes"), None)
  /\ log = [].
Proof. vm_compute. split; reflexivity. Qed.

(** C10. A directory among the entries examined whose nested listing
    cannot be obtained (the request raises, answers with another status, or
    does not return a list) is stored as the empty list under its key, and
    [count_files], which the scorer uses, counts every such placeholder for
    one, exactly as it counts a file. *)
Theorem C10_degraded_directory_counts_as_file (depth : nat) (c : client)
  (owner repo_name : string) (contents before : list item) (i : item) (after : list item)
  (log : list string) :
  firstn 20 contents = (before ++ i :: after)%list ->
  item_type i = "dir" ->
  listing_unavailable c owner repo_name i = true ->
  (forall j, In j after -> entry_key j <> entry_key i) ->
  exists t log',
    build_file_structure (S depth) c owner repo_name contents log = (Ok t, log')
    /\ dict_get t (item_name i ++ "/") = Some EmptyList
    /\ count_files (DCons (item_name i ++ "/") EmptyList DNil) = 1%nat
    /\ (1 <= placeholders t)%nat
    /\ count_files t = (file_leaves t + placeholders t)%nat.
Proof.
  intros Hcut Hdir Hun Hafter.
  set (recurse := build_file_structure depth c owner repo_name).
  assert (Hkey : entry_key i = item_name i ++ "/") by (unfold entry_key; now rewrite Hdir).
  simpl. fold recurse. rewrite Hcut, build_entries_app.
  destruct (build_entries_total recurse c owner repo_name before DNil log) as (t1 & log1 & ->).
  rewrite build_entries_cons, (entry_value_unavailable recurse c owner repo_name i log1 Hdir Hun).
  destruct (build_entries_total recurse c owner repo_name after
              (dict_set t1 (entry_key i) EmptyList)
              (log1 ++ [contents_url owner repo_name (item_path i)])%list) as (t & log' & Ht).
  exists t, log'.
  assert (Hget : dict_get t (item_name i ++ "/") = Some EmptyList).
  { rewrite <- Hkey.
    rewrite (build_entries_get_other recurse c owner repo_name _ _ _ _ _ _ Hafter Ht).
    apply dict_get_set_eq. }
  repeat split.
  - exact Ht.
  - exact Hget.
  - exact (placeholders_get _ _ Hget).
  - apply count_files_leaves_placeholders.
Qed.

Lemma C10_witness :
  let docs := {| item_type := "dir"; item_name := "docs"; item_path := "docs";
                 item_size := None |} in
  let main := {| item_type := "file"; item_name := "main.py"; item_path := "main.py";
                 item_size := Some 10%Z |} in
  item_type docs = "dir"
  /\ listing_unavailable unreachable "octo" "demo" docs = true
  /\ entry_key main <> entry_key docs
  /\ exists t log',
       build_file_structure 1 unreachable "octo" "demo" [docs; main] [] = (Ok t, log')
       /\ dict_get t "docs/" = Some EmptyList
       /\ count_files (DCons "docs/" EmptyList DNil) = 1%nat
       /\ (1 <= placeholders t)%nat
       /\ count_files t = (file_leaves t + placeholders t)%nat.
Proof.
  intros docs main.
  assert (Hkey : entry_key main <> entry_key docs) by (vm_compute; discriminate).
  split; [reflexivity|]. split; [reflexivity|]. split; [exact Hkey|].
  apply (C10_degraded_directory_counts_as_file 0 unreachable "octo" "demo"
           [docs; main] [] docs [main] []).
  - reflexivity.
  - reflexivity.
  - reflexivity.
  - intros j [<- | []]. exact Hkey.
Defined.

(** C8. [count_files] on the tree the fetcher builds for a repository whose
    only entry is a directory with an unavailable listing: the tree has no
    file, and the count is one. *)
Theorem C8_placeholder_counted_as_file :
  let docs := {| item_type := "dir"; item_name := "docs"; item_path := "docs";
                 item_size := None |} in
  let tree := DCons "docs/" EmptyList DNil in
  build_file_structure 1 unreachable "octo" "demo" [docs] []
  = (Ok tree, ["https://api.github.com/repos/octo/demo/contents/docs"])
  /\ file_leaves tree = 0%nat
  /\ count_files tree = 1%nat.
Proof. repeat split. Qed.

(** ** The heuristics on a small project *)

Example front_end_technologies :
  detect_technologies front_end bare
  = ["React"; "JavaScript"; "Node.js"; "npm"; "Tailwind CSS"].
Proof. reflexivity. Qed.

Example front_end_patterns :
  analyze_code_patterns front_end (detect_technologies front_end bare)
  = ["Test-driven development"; "React functional components"; "Utility-first CSS"].
Proof. reflexivity. Qed.

Example front_end_recommendations :
  (recommendations <- generate_recommendations front_end
                        (detect_technologies front_end bare) bare ;;
   Ok (mem "Add unit tests to improve code reliability" recommendations,
       mem "Add a comprehensive README.md file" recommendations))
  = Ok (false, true).
Proof. reflexivity. Qed.

(** ** Directory-name predicates *)

(** C3, as the code has it. [has_directory], in the pattern analyzer and in
    the recommendation generator alike, holds exactly when one of the keys
    at the top level of the tree, of a file or of a directory, contains the
    name; keys of nested dictionaries are not examined. *)
Theorem C3_has_directory_top_level (file_structure : pydict) (name : string) :
  has_directory file_structure name = true <->
  exists key, In key (keys file_structure) /\ substring_of name key.
Proof.
  unfold has_directory. rewrite existsb_exists.
  split; intros (key & Hin & Hsub); exists key; split; try exact Hin;
    now apply str_in_spec.
Qed.

(** C3 fails as stated: a [components/] directory nested under [src/] is a
    directory key containing the name, yet the predicate is false and the
    pattern label is not emitted. *)
Lemma C3_counterexample :
  let tree :=
    DCons "src/"
      (Dict (DCons "components/" (Dict (DCons "Button.tsx" (Str "120 bytes") DNil)) DNil))
      DNil in
  ~ (has_directory tree "components" = true <-> spec_has_directory "components" tree = true)
  /\ mem "Component-based architecture"
       (analyze_code_patterns tree (detect_technologies tree
          {| repo_language := None; repo_size := None;
             repo_stargazers_count := None; repo_forks_count := None |})) = false.
Proof.
  split.
  - intros [_ H]. specialize (H eq_refl). discriminate.
  - reflexivity.
Qed.

(** ** Technology detection *)

Lemma mem_app (x : string) (s t : list string) : mem x (s ++ t) = mem x s || mem x t.
Proof. unfold mem. apply existsb_app. Qed.

Lemma mem_set_add (label x : string) (s : list string) :
  mem label (set_add x s) = String.eqb label x || mem label s.
Proof.
  unfold set_add. destruct (mem x s) eqn:Hx.
  - destruct (String.eqb label x) eqn:E; [|reflexivity].
    apply String.eqb_eq in E. subst label. simpl. exact Hx.
  - rewrite mem_app. simpl. rewrite orb_false_r. apply orb_comm.
Qed.

Ltac name_known :=
  repeat match goal with
         | H : (_ || _) = true |- _ => apply orb_true_iff in H as [H | H]
         | H : String.eqb ?n _ = true |- _ => apply String.eqb_eq in H; subst n
         end.

Ltac label_added :=
  unfold set_update; cbn [fold_left]; rewrite ?mem_set_add;
  cbn [String.eqb Ascii.eqb Bool.eqb orb andb]; rewrite ?orb_false_r, ?orb_true_r;
  reflexivity.

(** No extension adds the label [GitHub Actions]. *)
Lemma detect_extension_github (name : string) (technologies : list string) :
  mem "GitHub Actions" (detect_extension name technologies)
  = mem "GitHub Actions" technologies.
Proof.
  unfold detect_extension.
  repeat match goal with
         | |- context [if ?b then _ else _] => destruct b
         end; label_added.
Qed.

(** Among the exact names only [.github] adds it. *)
Lemma detect_framework_github (name : string) (technologies : list string) :
  mem "GitHub Actions" (detect_framework name technologies)
  = mem "GitHub Actions" technologies || String.eqb name ".github".
Proof.
  unfold detect_framework.
  repeat match goal with
         | |- context [if ?b then _ else _] => destruct b eqn:?
         end; name_known; label_added.
Qed.

(** The detector reports [GitHub Actions] exactly when the language of the
    metadata is that text or some entry that is not a nested dictionary is
    stored under the key [.github]; a directory, stored as a dictionary
    under [.github/], never counts. *)
Lemma scan_files_github (structure : pydict) (technologies : list string) :
  mem "GitHub Actions" (scan_files structure technologies)
  = mem "GitHub Actions" technologies || has_plain_entry ".github" structure.
Proof.
  revert technologies.
  induction structure as [s| |d IHd| |key value IHv rest IHrest]
    using pydict_mut
    with (P := fun v => match v with
                        | Dict d => forall technologies,
                            mem "GitHub Actions" (scan_files d technologies)
                            = mem "GitHub Actions" technologies
                              || has_plain_entry ".github" d
                        | _ => True
                        end); try exact I; try assumption; intros technologies.
  - simpl. now rewrite orb_false_r.
  - simpl. rewrite IHrest.
    destruct value as [s| |d]; simpl in IHv.
    + rewrite detect_framework_github, detect_extension_github. now rewrite orb_assoc.
    + rewrite detect_framework_github, detect_extension_github. now rewrite orb_assoc.
    + rewrite IHv. now rewrite orb_assoc.
Qed.

Lemma detect_technologies_github (file_structure : pydict) (repo : repo_data) :
  mem "GitHub Actions" (detect_technologies file_structure repo)
  = match get_language repo with
    | Some l => String.eqb "GitHub Actions" l
    | None => false
    end || has_plain_entry ".github" file_structure.
Proof.
  unfold detect_technologies. rewrite scan_files_github.
  destruct (get_language repo) as [l|]; [|reflexivity].
  rewrite mem_set_add. simpl. now rewrite orb_false_r.
Qed.

(** C4. The tree the fetcher builds for a repository whose only top-level
    entry is the directory [.github] keeps that directory under the key
    [.github/]; the detector descends into it without looking at its name
    and reports no technology at all. *)
Theorem C4_github_directory_not_detected :
  let c : client := fun url =>
    if String.eqb url "https://api.github.com/repos/octo/demo/contents/.github" then
      Replies {| status_code := 200;
                 body := JList [ {| item_type := "file"; item_name := "ci.yml";
                                    item_path := ".github/ci.yml";
                                    item_size := Some 120%Z |} ] |}
    else Fails in
  let listing := [ {| item_type := "dir"; item_name := ".github"; item_path := ".github";
                      item_size := None |} ] in
  let tree := DCons ".github/" (Dict (DCons "ci.yml" (Str "120 bytes") DNil)) DNil in
  let repo := {| repo_language := None; repo_size := None;
                 repo_stargazers_count := None; repo_forks_count := None |} in
  fst (build_file_structure 2 c "octo" "demo" listing []) = Ok tree
  /\ detect_technologies tree repo = []
  /\ mem "GitHub Actions" (detect_technologies tree repo) = false.
Proof. repeat split. Qed.

(** ** Float arithmetic *)

Section FloatFacts.

Local Open Scope Q_scope.

Lemma two_pow_pos (k : Z) : 0 < 2 ^ k.
Proof. apply Qpower_0_lt. reflexivity. Qed.

Lemma two_pow_succ (k : Z) : 2 ^ (k + 1) == 2 * 2 ^ k.
Proof. rewrite Qpower_plus by discriminate. simpl (2 ^ 1). ring. Qed.

Lemma two_pow_le (a b : Z) : (a <= b)%Z -> 2 ^ a <= 2 ^ b.
Proof. intros. apply Qpower_le_compat_l; [assumption | discriminate]. Qed.

Lemma two_pow_Z (n : Z) : (0 <= n)%Z -> inject_Z (2 ^ n) == 2 ^ n.
Proof. intros. rewrite Zpower_Qpower by assumption. reflexivity. Qed.

Lemma Z_log2_bounds (p : Z) :
  (0 < p)%Z -> inject_Z p < 2 ^ (Z.log2 p + 1) /\ 2 ^ (Z.log2 p) <= inject_Z p.
Proof.
  intros Hp. destruct (Z.log2_spec p Hp) as [Hlo Hhi].
  pose proof (Z.log2_nonneg p) as Hnn.
  split.
  - rewrite <- two_pow_Z by lia. rewrite <- Zlt_Qlt.
    replace (Z.log2 p + 1)%Z with (Z.succ (Z.log2 p)) by lia. exact Hhi.
  - rewrite <- two_pow_Z by lia. rewrite <- Zle_Qle. exact Hlo.
Qed.

Lemma Q_as_quotient (x : Q) : x == inject_Z (Qnum x) / inject_Z (Zpos (Qden x)).
Proof. destruct x as [n d]. simpl. rewrite Qmake_Qdiv. reflexivity. Qed.

(** [ilog2] finds the binade: [2 ^ ilog2 x <= x < 2 ^ (ilog2 x + 1)]. *)
Lemma ilog2_spec (x : Q) :
  0 < x -> 2 ^ Float.ilog2 x <= x /\ x < 2 ^ (Float.ilog2 x + 1).
Proof.
  intros Hx.
  assert (Hn : (0 < Qnum x)%Z).
  { destruct x as [n d]. unfold Qlt in Hx. simpl in *. lia. }
  destruct (Z_log2_bounds _ Hn) as [Hnhi Hnlo].
  destruct (Z_log2_bounds (Zpos (Qden x)) eq_refl) as [Hdhi Hdlo].
  set (lp := Z.log2 (Qnum x)) in *. set (lq := Z.log2 (Zpos (Qden x))) in *.
  pose proof (Q_as_quotient x) as Hq.
  set (p := inject_Z (Qnum x)) in *. set (q := inject_Z (Zpos (Qden x))) in *.
  assert (Hqpos : 0 < q) by (unfold q; rewrite <- (Zlt_Qlt 0); reflexivity).
  assert (Hxq : x * q == p).
  { rewrite Hq. field. intro H0. rewrite H0 in Hqpos. discriminate. }
  pose proof (two_pow_pos lq) as Hlqp. pose proof (two_pow_pos lp) as Hlpp.
  pose proof (two_pow_pos (lp - lq)) as Hdp.
  pose proof (two_pow_pos (lp - lq - 1)) as Hdp1.
  assert (Hd : 2 ^ (lp - lq) * 2 ^ lq == 2 ^ lp).
  { rewrite <- Qpower_plus by discriminate.
    replace (lp - lq + lq)%Z with lp by lia. reflexivity. }
  assert (Hd1 : 2 * 2 ^ (lp - lq - 1) == 2 ^ (lp - lq)).
  { rewrite <- two_pow_succ.
    replace (lp - lq - 1 + 1)%Z with (lp - lq)%Z by lia. reflexivity. }
  rewrite two_pow_succ in Hnhi, Hdhi.
  unfold Float.ilog2. fold lp lq.
  destruct (Qle_bool (2 ^ (lp - lq)) x) eqn:Hb.
  - apply Qle_bool_iff in Hb. split; [exact Hb|].
    rewrite two_pow_succ.
    apply Qnot_le_lt. intro Hc.
    assert (2 * 2 ^ (lp - lq) * 2 ^ lq <= x * q) by nra.
    nra.
  - assert (Hlt : x < 2 ^ (lp - lq)).
    { apply Qnot_le_lt. intro Hc. apply Qle_bool_iff in Hc. congruence. }
    replace (lp - lq - 1 + 1)%Z with (lp - lq)%Z by lia. split; [|exact Hlt].
    apply Qnot_lt_le. intro Hc.
    assert (x * q < 2 ^ (lp - lq - 1) * (2 * 2 ^ lq)) by nra.
    nra.
Qed.

Lemma ilog2_le (x y : Q) : 0 < x -> x <= y -> (Float.ilog2 x <= Float.ilog2 y)%Z.
Proof.
  intros Hx Hxy. assert (Hy : 0 < y) by lra.
  destruct (ilog2_spec x Hx) as [Hlo _]. destruct (ilog2_spec y Hy) as [_ Hhi].
  destruct (Z_le_gt_dec (Float.ilog2 x) (Float.ilog2 y)) as [|Hgt]; [assumption|exfalso].
  assert (2 ^ (Float.ilog2 y + 1) <= 2 ^ Float.ilog2 x) by (apply two_pow_le; lia).
  lra.
Qed.

Lemma rint_Z (n : Z) : Float.rint (inject_Z n) = n.
Proof.
  unfold Float.rint. rewrite Qfloor_Z.
  assert (H : Qcompare (inject_Z n - inject_Z n) (1 # 2) = Lt).
  { rewrite <- Qlt_alt. lra. }
  rewrite H. reflexivity.
Qed.

Lemma rint_cases (x : Q) :
  Float.rint x = Qfloor x \/ Float.rint x = (Qfloor x + 1)%Z.
Proof.
  unfold Float.rint. destruct (Qcompare _ _); [destruct (Z.even _)|..]; auto.
Qed.

Lemma rint_le (x y : Q) : x <= y -> (Float.rint x <= Float.rint y)%Z.
Proof.
  intros Hxy. pose proof (Qfloor_resp_le _ _ Hxy) as Hf.
  destruct (Z.eq_dec (Qfloor x) (Qfloor y)) as [He | Hne].
  - unfold Float.rint. rewrite <- He.
    destruct (Qcompare (x - inject_Z (Qfloor x)) (1 # 2)) eqn:Hx;
      destruct (Qcompare (y - inject_Z (Qfloor x)) (1 # 2)) eqn:Hy;
      try (destruct (Z.even (Qfloor x))); try lia;
      try rewrite <- Qeq_alt in *; try rewrite <- Qlt_alt in *;
      try rewrite <- Qgt_alt in *; exfalso; lra.
  - destruct (rint_cases x) as [-> | ->], (rint_cases y) as [-> | ->]; lia.
Qed.

Lemma round64_pos (x : Q) :
  0 < x ->
  Float.round64 x
  == inject_Z (Float.rint (x / 2 ^ (Float.ilog2 x - 52))) * 2 ^ (Float.ilog2 x - 52).
Proof.
  intros Hx. unfold Float.round64. destruct x as [n d]. unfold Qlt in Hx. simpl in Hx.
  destruct n; try lia. simpl Qnum. cbv zeta. apply Qred_correct.
Qed.

Lemma round64_zero (x : Q) : x == 0 -> Float.round64 x = 0.
Proof.
  intros Hx. unfold Float.round64. destruct x as [n d]. unfold Qeq in Hx. simpl in Hx.
  replace n with 0%Z by lia. reflexivity.
Qed.

(** Rounding stays within the binade of its argument. *)
Lemma round64_binade (x : Q) :
  0 < x ->
  2 ^ Float.ilog2 x <= Float.round64 x /\ Float.round64 x <= 2 ^ (Float.ilog2 x + 1).
Proof.
  intros Hx. rewrite (round64_pos x Hx).
  destruct (ilog2_spec x Hx) as [Hlo Hhi].
  set (E := Float.ilog2 x) in *. set (u := 2 ^ (E - 52)).
  assert (Hu : 0 < u) by apply two_pow_pos.
  assert (HE : 2 ^ E == inject_Z (2 ^ 52) * u).
  { unfold u. rewrite two_pow_Z by lia. rewrite <- Qpower_plus by discriminate.
    replace (52 + (E - 52))%Z with E by lia. reflexivity. }
  assert (HE1 : 2 ^ (E + 1) == inject_Z (2 ^ 53) * u).
  { unfold u. rewrite two_pow_Z by lia. rewrite <- Qpower_plus by discriminate.
    replace (53 + (E - 52))%Z with (E + 1)%Z by lia. reflexivity. }
  assert (Hq1 : inject_Z (2 ^ 52) <= x / u).
  { apply Qle_shift_div_l; [exact Hu|]. rewrite <- HE. exact Hlo. }
  assert (Hq2 : x / u <= inject_Z (2 ^ 53)).
  { apply Qle_shift_div_r; [exact Hu|]. rewrite <- HE1. apply Qlt_le_weak. exact Hhi. }
  apply rint_le in Hq1, Hq2. rewrite rint_Z in Hq1, Hq2.
  rewrite Zle_Qle in Hq1, Hq2.
  rewrite HE, HE1. split; apply Qmult_le_compat_r; auto using Qlt_le_weak.
Qed.

(** Rounding to binary64 is monotone. *)
Lemma round64_le (x y : Q) : 0 <= x -> x <= y -> Float.round64 x <= Float.round64 y.
Proof.
  intros Hx Hxy.
  destruct (Qlt_le_dec 0 x) as [Hpos | Hz].
  - assert (Hy : 0 < y) by lra.
    pose proof (ilog2_le x y Hpos Hxy) as HE.
    destruct (Z.eq_dec (Float.ilog2 x) (Float.ilog2 y)) as [He | Hne].
    + rewrite (round64_pos x Hpos), (round64_pos y Hy), He.
      set (u := 2 ^ (Float.ilog2 y - 52)). assert (Hu : 0 < u) by apply two_pow_pos.
      apply Qmult_le_compat_r; [|lra].
      rewrite <- Zle_Qle. apply rint_le.
      apply Qle_shift_div_l; [exact Hu|].
      assert (Hxu : x / u * u == x) by (field; lra). lra.
    + destruct (round64_binade x Hpos) as [_ Hhi].
      destruct (round64_binade y Hy) as [Hlo _].
      assert (2 ^ (Float.ilog2 x + 1) <= 2 ^ Float.ilog2 y) by (apply two_pow_le; lia).
      lra.
  - rewrite (round64_zero x) by lra.
    destruct (Qlt_le_dec 0 y) as [Hy | Hy].
    + destruct (round64_binade y Hy) as [Hlo _].
      pose proof (two_pow_pos (Float.ilog2 y)). lra.
    + rewrite (round64_zero y) by lra. lra.
Qed.

End FloatFacts.

(** ** The complexity score *)

Section Score.

Local Open Scope Q_scope.

Lemma round64_nonneg (x : Q) : 0 <= x -> 0 <= Float.round64 x.
Proof. intros Hx. change 0 with (Float.round64 0) at 1. apply round64_le; lra. Qed.

Lemma round64_ge_1 (x : Q) : 1 <= x -> 1 <= Float.round64 x.
Proof.
  intros Hx. assert (H1 : Float.round64 1 == 1) by (vm_compute; reflexivity).
  rewrite <- H1. apply round64_le; lra.
Qed.

Lemma add_ge_1 (x y : Q) : 1 <= x -> 0 <= y -> 1 <= Float.add x y.
Proof. intros. apply round64_ge_1. lra. Qed.

Lemma add_nonneg (x y : Q) : 0 <= x -> 0 <= y -> 0 <= Float.add x y.
Proof. intros. apply round64_nonneg. lra. Qed.

Lemma min_nonneg (a b : Q) : 0 <= a -> 0 <= b -> 0 <= Float.min a b.
Proof. intros. unfold Float.min. destruct (Qle_bool a b); assumption. Qed.

Lemma truediv_nonneg (a : nat) (b : Z) : (0 < b)%Z -> 0 <= Float.truediv (Z.of_nat a) b.
Proof.
  intros Hb. apply round64_nonneg. apply Qle_shift_div_l.
  - rewrite <- (Zlt_Qlt 0). exact Hb.
  - rewrite Qmult_0_l. rewrite <- (Zle_Qle 0). lia.
Qed.

Lemma fold_add_nonneg (xs : list Q) (acc : Q) :
  Forall (fun x => 0 <= x) xs -> 0 <= acc -> 0 <= fold_left Float.add xs acc.
Proof.
  intros Hxs. revert acc. induction Hxs as [|x xs Hx Hxs IH]; intros acc Hacc; simpl.
  - exact Hacc.
  - apply IH. now apply add_nonneg.
Qed.

Lemma sum_nonneg (xs : list Q) : Forall (fun x => 0 <= x) xs -> 0 <= Float.sum xs.
Proof. intros Hxs. unfold Float.sum. apply fold_add_nonneg; [exact Hxs | lra]. Qed.

Lemma min_10_range (x : Q) : 1 <= x -> 1 <= Float.min 10 x /\ Float.min 10 x <= 10.
Proof.
  intros Hx. unfold Float.min. destruct (Qle_bool 10 x) eqn:Hb.
  - split; lra.
  - split; [exact Hx|]. apply Qnot_lt_le. intro Hc.
    assert (Qle_bool 10 x = true) by (apply Qle_bool_iff; lra). congruence.
Qed.

(** The ninety-one decimals from 1.0 to 10.0, read back as floats, lie in
    the interval and are left unchanged by a second rounding. *)
Lemma tenths_checked :
  forallb (fun n =>
             let s := Float.round64 (inject_Z n / 10) in
             Qle_bool 1 s && Qle_bool s 10 && Qeq_bool (Float.round1 s) s)
    (map Z.of_nat (seq 10 91)) = true.
Proof. vm_compute. reflexivity. Qed.

Lemma round1_range (y : Q) :
  1 <= y -> y <= 10 ->
  1 <= Float.round1 y /\ Float.round1 y <= 10
  /\ Float.round1 (Float.round1 y) == Float.round1 y.
Proof.
  intros Hlo Hhi. unfold Float.round1 at 1 2 4.
  set (n := Float.rint (y * 10)).
  assert (Hn : (10 <= n <= 100)%Z).
  { assert (Hl : (Float.rint (inject_Z 10) <= n)%Z)
      by (apply rint_le; unfold inject_Z; lra).
    assert (Hh : (n <= Float.rint (inject_Z 100))%Z)
      by (apply rint_le; unfold inject_Z; lra).
    rewrite rint_Z in Hl, Hh. lia. }
  pose proof tenths_checked as Hall. rewrite forallb_forall in Hall.
  specialize (Hall n).
  assert (Hin : In n (map Z.of_nat (seq 10 91))).
  { apply in_map_iff. exists (Z.to_nat n). split; [lia|]. apply in_seq. lia. }
  specialize (Hall Hin). cbv zeta in Hall.
  apply andb_prop in Hall as [Hall Hfix]. apply andb_prop in Hall as [H1 H10].
  apply Qle_bool_iff in H1, H10. apply Qeq_bool_iff in Hfix.
  repeat split; assumption.
Qed.

Lemma get_gt_total (field : option jnumber) (bound : Z) :
  field <> Some JNull -> exists b, get_gt field bound = Ok b.
Proof. intros H. destruct field as [[|n]|]; simpl; eauto. congruence. Qed.

(** Three files and nothing else: [1.0 + 3 / 20] is the float just below
1.15, which [round] takes to 1.1. *)
Example score_three_files :
  calculate_complexity_score
    (DCons "a" (Str "1 bytes") (DCons "b" (Str "1 bytes") (DCons "c" (Str "1 bytes") DNil)))
    [] bare
  = Ok (Float.literal 11 10).
Proof. vm_compute. reflexivity. Qed.

(** Three files and five technologies: [1.0 + 3 / 20 + 1.0] is the float
just below 2.15, and the score is 2.1. *)
Example score_front_end :
  calculate_complexity_score front_end (detect_technologies front_end bare) bare
  = Ok (Float.literal 21 10).
Proof. vm_compute. reflexivity. Qed.

(** C5. On metadata whose numeric fields are integers or absent, the
    scorer returns a score, for every tree and every list of technologies;
    the score lies between 1.0 and 10.0 and rounding it to one decimal
    place gives the score itself. *)
Theorem C5_score_range (file_structure : pydict) (technologies : list string)
  (repo : repo_data) :
  repo_size repo <> Some JNull ->
  repo_stargazers_count repo <> Some JNull ->
  repo_forks_count repo <> Some JNull ->
  exists score,
    calculate_complexity_score file_structure technologies repo = Ok score
    /\ 1 <= score /\ score <= 10
    /\ Float.round1 score == score.
Proof.
  intros Hsize Hstars Hforks. unfold calculate_complexity_score.
  destruct (get_gt_total _ 1000 Hsize) as [large ->].
  destruct (get_gt_total _ 10000 Hsize) as [huge ->].
  destruct (get_gt_total _ 10 Hstars) as [starred ->].
  destruct (get_gt_total _ 5 Hforks) as [forked ->].
  simpl rbind. eexists. split; [reflexivity|].
  apply round1_range; apply min_10_range.
  - apply add_ge_1.
    + repeat match goal with
             | |- 1 <= (if ?b then _ else _) => destruct b
             | |- 1 <= Float.add _ _ => apply add_ge_1
             | |- 0 <= Float.min _ _ => apply min_nonneg
             | |- 0 <= Float.truediv _ _ => apply truediv_nonneg
             end; try lra; try lia.
    + apply sum_nonneg. apply List.Forall_forall. intros x Hx.
      apply in_map_iff in Hx as (tech & <- & _). vm_compute. discriminate.
  - apply add_ge_1.
    + repeat match goal with
             | |- 1 <= (if ?b then _ else _) => destruct b
             | |- 1 <= Float.add _ _ => apply add_ge_1
             | |- 0 <= Float.min _ _ => apply min_nonneg
             | |- 0 <= Float.truediv _ _ => apply truediv_nonneg
             end; try lra; try lia.
    + apply sum_nonneg. apply List.Forall_forall. intros x Hx.
      apply in_map_iff in Hx as (tech & <- & _). vm_compute. discriminate.
Qed.

Lemma C5_witness :
  let repo := {| repo_language := Some "Python"; repo_size := Some (JInt 2048);
                 repo_stargazers_count := Some (JInt 12); repo_forks_count := None |} in
  let tree := DCons "main.py" (Str "10 bytes") (DCons "docs/" EmptyList DNil) in
  repo_size repo <> Some JNull
  /\ repo_stargazers_count repo <> Some JNull
  /\ repo_forks_count repo <> Some JNull
  /\ exists score,
       calculate_complexity_score tree ["Python"; "Docker"] repo = Ok score
       /\ 1 <= score /\ score <= 10
       /\ Float.round1 score == score.
Proof.
  simpl. repeat split; try discriminate.
  apply (C5_score_range
           (DCons "main.py" (Str "10 bytes") (DCons "docs/" EmptyList DNil))
           ["Python"; "Docker"]
           {| repo_language := Some "Python"; repo_size := Some (JInt 2048);
              repo_stargazers_count := Some (JInt 12); repo_forks_count := None |});
    simpl; discriminate.
Defined.

End Score.

(** ** The background task *)

Lemma status_of_set_status (repository_id status : string) (st : storage) :
  is_Some (repositories st !! repository_id) ->
  status_of repository_id (set_status repository_id status st) = Some status.
Proof.
  intros [r Hr]. unfold status_of, set_status. simpl.
  rewrite lookup_alter_eq, Hr. reflexivity.
Qed.

Lemma status_of_absent (repository_id : string) (st : storage) :
  repositories st !! repository_id = None -> status_of repository_id st = None.
Proof. intros H. unfold status_of. now rewrite H. Qed.

Lemma set_status_present (repository_id status : string) (st : storage) :
  is_Some (repositories st !! repository_id) ->
  is_Some (repositories (set_status repository_id status st) !! repository_id).
Proof.
  intros [r Hr]. unfold set_status. simpl. rewrite lookup_alter_eq, Hr. simpl. eauto.
Qed.

Lemma set_status_absent (repository_id status : string) (st : storage) :
  repositories st !! repository_id = None ->
  repositories (set_status repository_id status st) !! repository_id = None.
Proof. intros Hr. unfold set_status. simpl. now rewrite lookup_alter_eq, Hr. Qed.

(** The handler of [analyze_github_repository] turns every exception of its
    body into the fallback analysis. *)
Lemma analyze_github_repository_fault (depth : nat) (c : client) (owner repo_name : string)
  (log log' : list string) (e : exn) :
  analyze_github_body depth c owner repo_name log = (Raise e, log') ->
  analyze_github_repository depth c owner repo_name log
  = (Ok (create_fallback_analysis repo_name), log').
Proof. intros H. unfold analyze_github_repository, io_try. now rewrite H. Qed.

Lemma analyze_github_repository_total (depth : nat) (c : client) (owner repo_name : string)
  (log : list string) :
  exists a log', analyze_github_repository depth c owner repo_name log = (Ok a, log').
Proof.
  unfold analyze_github_repository, io_try.
  destruct (analyze_github_body depth c owner repo_name log) as [[a|e] log']; eauto.
Qed.

(** A run whose reference passes the guard records what the fetch returned,
    on the stores as the other handlers left them. *)
Lemma analyze_repository_fetched (c : client) (depth : nat) (analysis_id : string) (now : Z)
  (concurrent : storage -> storage) (repository_id : string) (parsed_url : ParseResult)
  (owner repo_name : string) (st : storage) (log log' : list string) (a : analysis) :
  parse_reference parsed_url = Ok (owner, repo_name) ->
  analyze_github_repository depth c owner repo_name log = (Ok a, log') ->
  analyze_repository c depth analysis_id now concurrent repository_id (Ok parsed_url) st log
  = (set_status repository_id "completed"
       (record_analysis analysis_id repository_id now a
          (concurrent (set_status repository_id "analyzing" st))),
     log').
Proof.
  intros Hparse Hfetch. unfold analyze_repository. simpl rbind.
  rewrite Hparse, Hfetch. reflexivity.
Qed.

Lemma record_analysis_lookup (analysis_id repository_id : string) (now : Z) (a : analysis)
  (st : storage) :
  analyses (record_analysis analysis_id repository_id now a st) !! analysis_id
  = Some {| RepositoryAnalysis.id := analysis_id;
            RepositoryAnalysis.repository_id := repository_id;
            RepositoryAnalysis.file_structure := a.1.1.1.1;
            RepositoryAnalysis.technologies_detected := a.1.1.1.2;
            RepositoryAnalysis.complexity_score := a.2;
            RepositoryAnalysis.vibe_patterns := a.1.1.2;
            RepositoryAnalysis.recommendations := a.1.2;
            RepositoryAnalysis.created_at := now |}.
Proof.
  destruct a as [[[[fs techs] pats] recs] score]. unfold record_analysis. simpl.
  apply lookup_insert_eq.
Qed.

(** A run whose reference passes the guard stores the record built from
    what the fetch handed back, writes [completed] when the repository is
    registered at that moment and never writes [failed], whatever the other
    handlers did during the fetch. *)
Lemma run_records (c : client) (depth : nat) (analysis_id : string) (now : Z)
  (concurrent : storage -> storage) (repository_id : string) (parsed_url : ParseResult)
  (owner repo_name : string) (st : storage) (log log' : list string) (a : analysis) :
  parse_reference parsed_url = Ok (owner, repo_name) ->
  analyze_github_repository depth c owner repo_name log = (Ok a, log') ->
  let st' :=
    fst (analyze_repository c depth analysis_id now concurrent repository_id
           (Ok parsed_url) st log) in
  analyses st' !! analysis_id = Some (stored_analysis analysis_id repository_id now a)
  /\ (is_Some (repositories (concurrent (set_status repository_id "analyzing" st))
               !! repository_id) ->
      status_of repository_id st' = Some "completed")
  /\ status_of repository_id st' <> Some "failed".
Proof.
  intros Hparse Hfetch st'. subst st'.
  rewrite (analyze_repository_fetched _ _ _ _ _ _ _ _ _ _ _ _ _ Hparse Hfetch). cbn [fst].
  set (mid := concurrent (set_status repository_id "analyzing" st)).
  assert (Hrepos : repositories (record_analysis analysis_id repository_id now a mid)
                   = repositories mid)
    by (destruct a as [[[[fs techs] pats] recs] score]; reflexivity).
  assert (Hdone : is_Some (repositories mid !! repository_id) ->
                  status_of repository_id
                    (set_status repository_id "completed"
                       (record_analysis analysis_id repository_id now a mid))
                  = Some "completed").
  { intros Hreg. apply status_of_set_status. now rewrite Hrepos. }
  split; [|split].
  - unfold set_status at 1. cbn [analyses].
    destruct a as [[[[fs techs] pats] recs] score]. unfold record_analysis, stored_analysis.
    cbn [analyses]. apply lookup_insert_eq.
  - exact Hdone.
  - destruct (repositories mid !! repository_id) as [r|] eqn:Hr.
    + rewrite Hdone by eauto. discriminate.
    + rewrite status_of_absent; [discriminate|].
      apply set_status_absent. now rewrite Hrepos.
Qed.

(** C1, as the code has it. No failure of the remote fetch or of a
    heuristic ends a run whose reference passed the guard with the status
    [failed] or without an analysis.  The run always stores an analysis
    under its new identifier: the fallback analysis, technology [Unknown]
    and score 1.0, when an exception leaves the [try] block of
    [analyze_github_repository], and the analysis that block returned
    otherwise.  The status becomes [completed] if the repository is
    registered when the fetch returns, whatever the other handlers did
    meanwhile, and is never [failed].  A failure of a nested listing
    request, also the exhaustion of the call depth in a nested call, does
    not leave [build_file_structure]: a call that is itself admitted returns
    a tree on every listing. *)
Theorem C1_faults_end_completed (c : client) (depth : nat) (analysis_id : string)
  (now : Z) (concurrent : storage -> storage) (repository_id : string)
  (parsed_url : ParseResult) (owner repo_name : string) (st : storage)
  (log : list string) :
  parse_reference parsed_url = Ok (owner, repo_name) ->
  let st' :=
    fst (analyze_repository c depth analysis_id now concurrent repository_id
           (Ok parsed_url) st log) in
  let recorded :=
    match fst (analyze_github_body depth c owner repo_name log) with
    | Ok a => a
    | Raise _ => create_fallback_analysis repo_name
    end in
  analyses st' !! analysis_id = Some (stored_analysis analysis_id repository_id now recorded)
  /\ (is_Some (repositories (concurrent (set_status repository_id "analyzing" st))
               !! repository_id) ->
      status_of repository_id st' = Some "completed")
  /\ status_of repository_id st' <> Some "failed"
  /\ (forall (d : nat) (contents : list item) (log0 : list string),
        exists tree log1,
          build_file_structure (S d) c owner repo_name contents log0 = (Ok tree, log1)).
Proof.
  intros Hparse st' recorded.
  assert (Hfetch : analyze_github_repository depth c owner repo_name log
                   = (Ok recorded, snd (analyze_github_body depth c owner repo_name log))).
  { subst recorded. unfold analyze_github_repository, io_try, io_ret.
    destruct (analyze_github_body depth c owner repo_name log) as [[a|e] log']; reflexivity. }
  destruct (run_records c depth analysis_id now concurrent repository_id parsed_url
              owner repo_name st log _ recorded Hparse Hfetch) as (Hrec & Hdone & Hnot).
  split; [exact Hrec|]. split; [exact Hdone|]. split; [exact Hnot|].
  intros d contents log0. simpl. apply build_entries_total.
Qed.

Lemma C1_witness :
  parse_reference octo_demo = Ok ("octo", "demo")
  /\ let st' :=
       fst (analyze_repository docs_unlistable 100 "a1" 7 undisturbed "r1" (Ok octo_demo)
              one_registered []) in
     analyses st' !! "a1"
     = Some (stored_analysis "a1" "r1" 7
               (DCons "docs/" EmptyList (DCons "main.py" (Str "42 bytes") DNil),
                ["Python"],
                [],
                ["Add unit tests to improve code reliability";
                 "Add a comprehensive README.md file";
                 "Set up GitHub Actions for CI/CD";
                 "Add environment configuration files"],
                Float.round1 (Float.add (Float.add 1 (Float.truediv 2 20))
                                (Float.truediv 1 5))))
     /\ status_of "r1" st' = Some "completed".
Proof.
  split; [reflexivity|].
  pose proof (C1_faults_end_completed docs_unlistable 100 "a1" 7 undisturbed "r1" octo_demo
                "octo" "demo" one_registered [] eq_refl) as H.
  cbv zeta in H. destruct H as (Hrec & Hdone & _).
  split.
  - rewrite Hrec. vm_compute. reflexivity.
  - apply Hdone. vm_compute. eexists. reflexivity.
Defined.

(** C1 fails as stated: with the remote API unreachable the first request
    of the fetch raises, and the run ends with the job [completed] and an
    analysis in the store. *)
Lemma C1_counterexample :
  let st' :=
    fst (analyze_repository unreachable 100 "a1" 7 undisturbed "r1" (Ok octo_demo)
           one_registered []) in
  analyze_github_body 100 unreachable "octo" "demo" []
  = (Raise TransportError, ["https://api.github.com/repos/octo/demo"])
  /\ status_of "r1" st' = Some "completed"
  /\ is_Some (analyses st' !! "a1")
  /\ ~ (status_of "r1" st' = Some "failed" /\ analyses st' = analyses one_registered).
Proof.
  repeat split.
  - vm_compute. eexists. reflexivity.
  - intros [H _]. vm_compute in H. discriminate.
Qed.

(** A fault of a heuristic is treated alike: the comparison of a [null]
    star count with an integer raises in the recommendation generator, and
    the run completes with the fallback analysis. *)
Example heuristic_fault_completes :
  let st' :=
    fst (analyze_repository null_stars 100 "a1" 7 undisturbed "r1" (Ok octo_demo)
           one_registered []) in
  fst (analyze_github_body 100 null_stars "octo" "demo" []) = Raise TypeError
  /\ status_of "r1" st' = Some "completed"
  /\ RepositoryAnalysis.technologies_detected <$> analyses st' !! "a1" = Some ["Unknown"].
Proof. repeat split. Qed.

(** A fault of a nested listing request stays inside the fetcher: the
    directory is stored as an empty list, the [try] block returns, and the
    run completes with the analysis computed from the tree. *)
Example nested_fault_completes :
  let st' :=
    fst (analyze_repository docs_unlistable 100 "a1" 7 undisturbed "r1" (Ok octo_demo)
           one_registered []) in
  docs_unlistable (contents_url "octo" "demo" "docs") = Fails
  /\ snd (analyze_github_body 100 docs_unlistable "octo" "demo" [])
     = ["https://api.github.com/repos/octo/demo";
        "https://api.github.com/repos/octo/demo/contents";
        "https://api.github.com/repos/octo/demo/contents/docs"]
  /\ status_of "r1" st' = Some "completed"
  /\ RepositoryAnalysis.file_structure <$> analyses st' !! "a1"
     = Some (DCons "docs/" EmptyList (DCons "main.py" (Str "42 bytes") DNil))
  /\ RepositoryAnalysis.technologies_detected <$> analyses st' !! "a1" = Some ["Python"].
Proof. vm_compute. repeat split. Qed.

(** A metadata request answered with another status than 200 raises in the
    body of [analyze_github_repository], after that single request. *)
Lemma analyze_github_body_unavailable (depth : nat) (c : client) (owner repo_name : string)
  (log : list string) (r : response) :
  c (api ++ owner ++ "/" ++ repo_name) = Replies r ->
  status_code r <> 200%Z ->
  analyze_github_body depth c owner repo_name log
  = (Raise (ValueError ("Repository not found or not accessible: "
                        ++ Py.str_of_int (status_code r))),
     app log [api ++ owner ++ "/" ++ repo_name]).
Proof.
  intros Hc Hstatus. unfold analyze_github_body, io_bind, http_get. rewrite Hc.
  apply Z.eqb_neq in Hstatus. rewrite Hstatus. reflexivity.
Qed.

(** C2, as the code has it. When the metadata request is answered with
    another status than 200, the run sends that single request and stores
    an analysis whose technology list is [["Unknown"]], whatever the body of
    the answer reports, and whose score is 1.0; the status goes from
    [analyzing] to [completed] if the repository is registered when the
    fetch returns. *)
Theorem C2_unavailable_repository_completes (c : client) (depth : nat)
  (analysis_id : string) (now : Z) (concurrent : storage -> storage)
  (repository_id : string) (parsed_url : ParseResult) (owner repo_name : string)
  (st : storage) (log : list string) (r : response) :
  parse_reference parsed_url = Ok (owner, repo_name) ->
  c (api ++ owner ++ "/" ++ repo_name) = Replies r ->
  status_code r <> 200%Z ->
  let '(st', log') :=
    analyze_repository c depth analysis_id now concurrent repository_id
      (Ok parsed_url) st log in
  log' = app log [api ++ owner ++ "/" ++ repo_name]
  /\ (is_Some (repositories (concurrent (set_status repository_id "analyzing" st))
               !! repository_id) ->
      status_of repository_id st' = Some "completed")
  /\ exists a,
       analyses st' !! analysis_id = Some a
       /\ RepositoryAnalysis.repository_id a = repository_id
       /\ RepositoryAnalysis.technologies_detected a = ["Unknown"]
       /\ RepositoryAnalysis.complexity_score a = 1%Q.
Proof.
  intros Hparse Hc Hstatus.
  pose proof (analyze_github_repository_fault _ _ _ _ _ _ _
                (analyze_github_body_unavailable depth c owner repo_name log r Hc Hstatus))
    as Hfetch.
  destruct (run_records c depth analysis_id now concurrent repository_id parsed_url
              owner repo_name st log _ _ Hparse Hfetch) as (Hrec & Hdone & _).
  rewrite (analyze_repository_fetched _ _ _ _ _ _ _ _ _ _ _ _ _ Hparse Hfetch) in *.
  cbn [fst] in *.
  split; [reflexivity|]. split; [exact Hdone|].
  eexists. split; [exact Hrec|]. repeat split.
Qed.

Lemma C2_witness :
  parse_reference octo_demo = Ok ("octo", "demo")
  /\ not_found_go (api ++ "octo" ++ "/" ++ "demo")
     = Replies {| status_code := 404;
                  body := JObject {| repo_language := Some "Go"; repo_size := None;
                                     repo_stargazers_count := None;
                                     repo_forks_count := None |} |}
  /\ let '(st', log') :=
       analyze_repository not_found_go 100 "a1" 7 undisturbed "r1" (Ok octo_demo)
         one_registered [] in
     log' = ["https://api.github.com/repos/octo/demo"]
     /\ status_of "r1" st' = Some "completed"
     /\ exists a,
          analyses st' !! "a1" = Some a
          /\ RepositoryAnalysis.repository_id a = "r1"
          /\ RepositoryAnalysis.technologies_detected a = ["Unknown"]
          /\ RepositoryAnalysis.complexity_score a = 1%Q.
Proof.
  split; [reflexivity|]. split; [reflexivity|].
  assert (Hstatus : status_code {| status_code := 404;
                                   body := JObject {| repo_language := Some "Go";
                                                      repo_size := None;
                                                      repo_stargazers_count := None;
                                                      repo_forks_count := None |} |}
                    <> 200%Z) by (simpl; discriminate).
  pose proof (C2_unavailable_repository_completes not_found_go 100 "a1" 7 undisturbed "r1"
                octo_demo "octo" "demo" one_registered [] _ eq_refl eq_refl Hstatus) as H.
  destruct (analyze_repository not_found_go 100 "a1" 7 undisturbed "r1" (Ok octo_demo)
              one_registered []) as [st' log'].
  destruct H as (Hlog & Hdone & Hrec).
  split; [exact Hlog|]. split; [|exact Hrec].
  apply Hdone. vm_compute. eexists. reflexivity.
Defined.

(** C2 fails as stated: the metadata request is answered with 404 and a
    body that reports the language Go; the claim gives the technology list
    [["Go"]], the run stores [["Unknown"]]. *)
Lemma C2_counterexample :
  let answer :=
    {| status_code := 404;
       body := JObject {| repo_language := Some "Go"; repo_size := None;
                          repo_stargazers_count := None; repo_forks_count := None |} |} in
  let st' :=
    fst (analyze_repository not_found_go 100 "a1" 7 undisturbed "r1" (Ok octo_demo)
           one_registered []) in
  not_found_go "https://api.github.com/repos/octo/demo" = Replies answer
  /\ spec_unavailable_technologies (body answer) = ["Go"]
  /\ status_of "r1" st' = Some "completed"
  /\ RepositoryAnalysis.technologies_detected <$> analyses st' !! "a1" = Some ["Unknown"]
  /\ RepositoryAnalysis.technologies_detected <$> analyses st' !! "a1"
     <> Some (spec_unavailable_technologies (body answer)).
Proof.
  vm_compute. repeat split. discriminate.
Qed.

(** ** References and the guard *)

Lemma parse_reference_rejected (parsed_url : ParseResult) :
  Py.str_in "github.com" (netloc parsed_url) = false
  \/ (length (Py.split_slash (Py.strip_slash (path parsed_url))) < 2)%nat ->
  exists e, parse_reference parsed_url = Raise e.
Proof.
  unfold parse_reference. intros [Hhost | Hpath].
  - rewrite Hhost. simpl. eauto.
  - destruct (negb _); [eauto|].
    apply Nat.ltb_lt in Hpath. rewrite Hpath. eauto.
Qed.

(** C7, at the failing input.  The reference
    [https://notgithub.com/octo/demo] does not identify the supported host,
    yet its network location contains the text [github.com] and the
    substring test of the guard lets it pass: the run sends a request for
    [octo/demo] to the API and, the API being unreachable, ends [completed]
    with an analysis recorded, where the claim and the message of the guard,
    [Only GitHub repositories are supported], have it fail without a
    request. *)
Theorem C7_unsupported_host_is_fetched :
  let reference := {| netloc := "notgithub.com"; path := "/octo/demo" |} in
  let '(st', log') :=
    analyze_repository unreachable 100 "a1" 7 undisturbed "r1" (Ok reference)
      one_registered [] in
  spec_well_formed reference = false
  /\ parse_reference reference = Ok ("octo", "demo")
  /\ log' = ["https://api.github.com/repos/octo/demo"]
  /\ status_of "r1" st' = Some "completed"
  /\ is_Some (analyses st' !! "a1")
  /\ ~ (status_of "r1" st' = Some "failed" /\ log' = [] /\ analyses st' = analyses one_registered).
Proof.
  vm_compute. repeat split.
  - eexists. reflexivity.
  - intros [H _]. discriminate.
Qed.

(** A reference that the guard rejects, because its network location does
    not contain the text [github.com] or because its path, stripped of
    slashes at both ends, splits into fewer than two parts, sends the job of
    a registered repository from [analyzing] straight to [failed]: no
    request is sent and no analysis is recorded, whatever the other handlers
    do. *)
Theorem rejected_reference_fails (c : client) (depth : nat) (analysis_id : string)
  (now : Z) (concurrent : storage -> storage) (repository_id : string)
  (parsed_url : ParseResult) (st : storage) (log : list string) :
  is_Some (repositories st !! repository_id) ->
  Py.str_in "github.com" (netloc parsed_url) = false
  \/ (length (Py.split_slash (Py.strip_slash (path parsed_url))) < 2)%nat ->
  let '(st', log') :=
    analyze_repository c depth analysis_id now concurrent repository_id
      (Ok parsed_url) st log in
  status_of repository_id st' = Some "failed"
  /\ analyses st' = analyses st
  /\ log' = log.
Proof.
  intros Hreg Hrej. destruct (parse_reference_rejected parsed_url Hrej) as [e He].
  unfold analyze_repository. simpl rbind. rewrite He.
  repeat split. apply status_of_set_status. now apply set_status_present.
Qed.

Lemma rejected_reference_fails_witness :
  is_Some (repositories one_registered !! "r1")
  /\ (length (Py.split_slash (Py.strip_slash "/octo/")) < 2)%nat
  /\ let '(st', log') :=
       analyze_repository unreachable 100 "a1" 7 undisturbed "r1"
         (Ok {| netloc := "github.com"; path := "/octo/" |}) one_registered [] in
     status_of "r1" st' = Some "failed"
     /\ analyses st' = analyses one_registered
     /\ log' = [].
Proof.
  assert (Hreg : is_Some (repositories one_registered !! "r1"))
    by (vm_compute; eexists; reflexivity).
  split; [exact Hreg|]. split; [vm_compute; lia|].
  refine (rejected_reference_fails unreachable 100 "a1" 7 undisturbed "r1"
            {| netloc := "github.com"; path := "/octo/" |} one_registered [] Hreg _).
  right. vm_compute. lia.
Defined.

(** ** Deletion during a run *)

Lemma delete_repository_registered (repository_id : string) (st : storage) :
  is_Some (repositories st !! repository_id) ->
  delete_repository repository_id st
  = Some {| repositories := delete repository_id (repositories st);
            analyses :=
              filter (fun kv => RepositoryAnalysis.repository_id kv.2 <> repository_id)
                (analyses st) |}.
Proof. intros [r Hr]. unfold delete_repository. now rewrite Hr. Qed.

Lemma listed_by_repository (analysis_id repository_id : string) (a : RepositoryAnalysis.t)
  (st : storage) :
  analyses st !! analysis_id = Some a ->
  RepositoryAnalysis.repository_id a = repository_id ->
  In a (get_analyses_by_repository repository_id st).
Proof.
  intros Hget Hid. unfold get_analyses_by_repository.
  apply filter_In. split.
  - apply in_map_iff. exists (analysis_id, a). split; [reflexivity|].
    apply list_elem_of_In. now apply elem_of_map_to_list.
  - now apply String.eqb_eq.
Qed.

(** C9. The record of a registered repository is deleted while its run is
    suspended on the fetch: the deletion succeeds, the run still inserts an
    analysis whose [repository_id] is the deleted identifier, and only the
    status write is skipped; at the end the analysis is in the store, listed
    among the analyses of that identifier, and the repository is not. *)
Theorem C9_analysis_outlives_deleted_repository (c : client) (depth : nat)
  (analysis_id : string) (now : Z) (repository_id : string) (parsed_url : ParseResult)
  (owner repo_name : string) (st : storage) (log : list string) :
  is_Some (repositories st !! repository_id) ->
  parse_reference parsed_url = Ok (owner, repo_name) ->
  let st' :=
    fst (analyze_repository c depth analysis_id now (deleted_meanwhile repository_id)
           repository_id (Ok parsed_url) st log) in
  is_Some (delete_repository repository_id (set_status repository_id "analyzing" st))
  /\ repositories st' !! repository_id = None
  /\ status_of repository_id st' = None
  /\ exists a,
       analyses st' !! analysis_id = Some a
       /\ RepositoryAnalysis.repository_id a = repository_id
       /\ In a (get_analyses_by_repository repository_id st').
Proof.
  intros Hreg Hparse.
  destruct (analyze_github_repository_total depth c owner repo_name log) as (a & log' & Hfetch).
  rewrite (analyze_repository_fetched _ _ _ _ _ _ _ _ _ _ _ _ _ Hparse Hfetch).
  pose proof (set_status_present repository_id "analyzing" st Hreg) as Hreg1.
  unfold deleted_meanwhile. rewrite (delete_repository_registered _ _ Hreg1). cbn [fst].
  assert (Hgone : repositories
                    (set_status repository_id "completed"
                       (record_analysis analysis_id repository_id now a
                          {| repositories :=
                               delete repository_id
                                 (repositories (set_status repository_id "analyzing" st));
                             analyses :=
                               filter
                                 (fun kv =>
                                    RepositoryAnalysis.repository_id kv.2 <> repository_id)
                                 (analyses (set_status repository_id "analyzing" st)) |}))
                  !! repository_id = None).
  { apply set_status_absent.
    destruct a as [[[[fs techs] pats] recs] score]. unfold record_analysis.
    cbn [repositories]. apply lookup_delete_eq. }
  split; [eauto|]. split; [exact Hgone|]. split; [now apply status_of_absent|].
  eexists. split; [|split].
  - unfold set_status at 1. cbn [analyses]. apply record_analysis_lookup.
  - reflexivity.
  - apply listed_by_repository with (analysis_id := analysis_id); [|reflexivity].
    unfold set_status at 1. cbn [analyses]. apply record_analysis_lookup.
Qed.

Lemma C9_witness :
  is_Some (repositories one_registered !! "r1")
  /\ parse_reference octo_demo = Ok ("octo", "demo")
  /\ let st' :=
       fst (analyze_repository not_found 100 "a1" 7 (deleted_meanwhile "r1") "r1"
              (Ok octo_demo) one_registered []) in
     repositories st' !! "r1" = None
     /\ exists a,
          analyses st' !! "a1" = Some a
          /\ RepositoryAnalysis.repository_id a = "r1"
          /\ In a (get_analyses_by_repository "r1" st').
Proof.
  assert (Hreg : is_Some (repositories one_registered !! "r1"))
    by (vm_compute; eexists; reflexivity).
  split; [exact Hreg|]. split; [reflexivity|].
  destruct (C9_analysis_outlives_deleted_repository not_found 100 "a1" 7 "r1" octo_demo
              "octo" "demo" one_registered [] Hreg eq_refl) as (_ & Hgone & _ & Hkept).
  split; [exact Hgone | exact Hkept].
Defined.


(** * Further properties *)

(** ** The fetcher, entry by entry *)

Section FetcherEntries.

Variable recurse : list item -> IO pydict.
Variable c : client.
Variables owner repo_name : string.

Lemma entry_value_file (i : item) (log : list string) :
  item_type i <> "dir" ->
  entry_value recurse c owner repo_name i log = (Str (size_descriptor i), log).
Proof.
  intros Hfile. unfold entry_value. apply String.eqb_neq in Hfile. now rewrite Hfile.
Qed.

(** The value stored by the loop for an entry that no later entry
    overwrites. *)
Lemma build_entries_stores (before : list item) (i : item) (after : list item)
  (structure : pydict) (log : list string) :
  (forall j, In j after -> entry_key j <> entry_key i) ->
  exists t1 log1 t log',
    build_entries recurse c owner repo_name before structure log = (Ok t1, log1)
    /\ build_entries recurse c owner repo_name (before ++ i :: after) structure log
       = (Ok t, log')
    /\ dict_get t (entry_key i) = Some (entry_value recurse c owner repo_name i log1).1.
Proof.
  intros Hafter.
  destruct (build_entries_total recurse c owner repo_name before structure log)
    as (t1 & log1 & Hbefore).
  exists t1, log1. rewrite build_entries_app, Hbefore, build_entries_cons.
  destruct (entry_value recurse c owner repo_name i log1) as [v log2].
  destruct (build_entries_total recurse c owner repo_name after
              (dict_set t1 (entry_key i) v) log2) as (t & log' & Hrest).
  exists t, log'. repeat split; [exact Hrest|].
  rewrite (build_entries_get_other recurse c owner repo_name _ _ _ _ _ _ Hafter Hrest).
  apply dict_get_set_eq.
Qed.

(** An invariant of the dictionary under construction that every stored
    value preserves holds of the result of the loop. *)
Lemma build_entries_invariant (Pd : pydict -> Prop) (Pv : pyvalue -> Prop) :
  (forall d k v, Pd d -> Pv v -> Pd (dict_set d k v)) ->
  (forall s, Pv (Str s)) ->
  Pv EmptyList ->
  (forall l lg sub lg', recurse (firstn 10 l) lg = (Ok sub, lg') -> Pv (Dict sub)) ->
  forall contents structure log t log',
    Pd structure ->
    build_entries recurse c owner repo_name contents structure log = (Ok t, log') ->
    Pd t.
Proof.
  intros Hset Hstr Hempty Hrec.
  induction contents as [|i contents IH]; intros structure log t log' Hd H.
  - simpl in H. unfold io_ret in H. congruence.
  - rewrite build_entries_cons in H.
    destruct (entry_value recurse c owner repo_name i log) as [v log1] eqn:Hv.
    assert (Hgood : Pv v).
    { unfold entry_value in Hv.
      destruct (String.eqb (item_type i) "dir"); [|injection Hv as <- _; apply Hstr].
      destruct (c (contents_url owner repo_name (item_path i))) as [|r];
        [injection Hv as <- _; exact Hempty|].
      destruct (status_code r =? 200)%Z; [|injection Hv as <- _; exact Hempty].
      destruct (body r) as [|o|l]; try (injection Hv as <- _; exact Hempty).
      destruct (recurse (firstn 10 l) _) as [[sub|e] log2] eqn:Hr;
        injection Hv as <- _; [|exact Hempty].
      eapply Hrec, Hr. }
    exact (IH _ _ _ _ (Hset _ (entry_key i) _ Hd Hgood) H).
Qed.

(** The requests of one pass of the loop, given the requests [nested] of
    the recursive call: they do not depend on the dictionary built so far
    nor on the requests made before. *)
Lemma build_entries_requests (nested : list item -> list string) :
  (forall l lg, snd (recurse l lg) = (lg ++ nested l)%list) ->
  forall contents structure log,
    snd (build_entries recurse c owner repo_name contents structure log)
    = (log ++
       flat_map
         (fun i =>
            if String.eqb (item_type i) "dir" then
              let url := contents_url owner repo_name (item_path i) in
              url :: match c url with
                     | Fails => []
                     | Replies r =>
                         if (status_code r =? 200)%Z then
                           match body r with
                           | JList l => nested (firstn 10 l)
                           | _ => []
                           end
                         else []
                     end
            else [])
         contents)%list.
Proof.
  intros Hrec.
  induction contents as [|i contents IH]; intros structure log.
  - simpl. now rewrite app_nil_r.
  - rewrite build_entries_cons.
    destruct (entry_value recurse c owner repo_name i log) as [v log1] eqn:Hv.
    rewrite IH. cbn [flat_map]. rewrite app_assoc. f_equal.
    unfold entry_value in Hv.
    destruct (String.eqb (item_type i) "dir").
    + cbv zeta in *.
      destruct (c (contents_url owner repo_name (item_path i))) as [|r];
        [now injection Hv as _ <-|].
      destruct (status_code r =? 200)%Z; [|now injection Hv as _ <-].
      destruct (body r) as [|o|l]; try (now injection Hv as _ <-).
      pose proof (Hrec (firstn 10 l)
                    (log ++ [contents_url owner repo_name (item_path i)])%list) as Hr.
      destruct (recurse (firstn 10 l) _) as [out2 log2].
      cbn [snd] in Hr. subst log2.
      destruct out2; injection Hv as _ <-; now rewrite <- app_assoc.
    + injection Hv as _ <-. now rewrite app_nil_r.
Qed.

(** Without a directory among the entries the loop sends no request. *)
Lemma build_entries_files_only (contents : list item) (structure : pydict)
  (log : list string) :
  Forall (fun j => item_type j <> "dir") contents ->
  exists t, build_entries recurse c owner repo_name contents structure log = (Ok t, log)
            /\ (placeholders structure = 0%nat -> placeholders t = 0%nat).
Proof.
  intros Hfiles. revert structure.
  induction Hfiles as [|i contents Hi Hfiles IH]; intros structure.
  - exists structure. split; [reflexivity | auto].
  - rewrite build_entries_cons, (entry_value_file i log Hi).
    destruct (IH (dict_set structure (entry_key i) (Str (size_descriptor i))))
      as (t & Ht & Hp).
    exists t. split; [exact Ht|]. intros H0. apply Hp.
    clear -H0. induction structure as [|k v rest IHs]; simpl in *; [reflexivity|].
    destruct (String.eqb k (entry_key i)); simpl; destruct v; simpl in *; lia.
Qed.

End FetcherEntries.

Lemma build_file_structure_total (depth : nat) (c : client) (owner repo_name : string)
  (contents : list item) (log : list string) :
  exists t log', build_file_structure (S depth) c owner repo_name contents log = (Ok t, log').
Proof. simpl. apply build_entries_total. Qed.

(** A file among the first twenty entries is stored under its name with its
    size, or 0 when the listing gives none, followed by [" bytes"]. *)
Theorem fetcher_file_descriptor (depth : nat) (c : client) (owner repo_name : string)
  (contents before : list item) (i : item) (after : list item) (log : list string) :
  firstn 20 contents = (before ++ i :: after)%list ->
  item_type i <> "dir" ->
  (forall j, In j after -> entry_key j <> entry_key i) ->
  exists t log',
    build_file_structure (S depth) c owner repo_name contents log = (Ok t, log')
    /\ dict_get t (item_name i)
       = Some (Str (Py.str_of_int (default 0%Z (item_size i)) ++ " bytes")).
Proof.
  intros Hcut Hfile Hafter. simpl. rewrite Hcut.
  destruct (build_entries_stores (build_file_structure depth c owner repo_name)
              c owner repo_name before i after DNil log Hafter)
    as (t1 & log1 & t & log' & _ & Hbuild & Hget).
  exists t, log'. split; [exact Hbuild|].
  rewrite entry_value_file in Hget by exact Hfile.
  unfold entry_key in Hget. apply String.eqb_neq in Hfile. rewrite Hfile in Hget.
  rewrite Hget. unfold size_descriptor. now destruct (item_size i).
Qed.

Lemma fetcher_file_descriptor_witness :
  let readme := {| item_type := "file"; item_name := "README.md"; item_path := "README.md";
                   item_size := None |} in
  firstn 20 [readme] = ([] ++ readme :: [])%list
  /\ item_type readme <> "dir"
  /\ exists t log',
       build_file_structure 1 unreachable "octo" "demo" [readme] [] = (Ok t, log')
       /\ dict_get t "README.md" = Some (Str "0 bytes").
Proof.
  intros readme.
  assert (Hfile : item_type readme <> "dir") by (vm_compute; discriminate).
  split; [reflexivity|]. split; [exact Hfile|].
  exact (fetcher_file_descriptor 0 unreachable "octo" "demo" [readme] [] readme [] []
           eq_refl Hfile (fun j (H : In j []) => match H with end)).
Defined.

(** A directory among the first twenty entries whose listing is answered
    with status 200 and a list is stored, under its name followed by a
    slash, as the tree built from the first ten entries of that list. *)
Theorem fetcher_nested_directory (depth : nat) (c : client) (owner repo_name : string)
  (contents before : list item) (i : item) (after : list item) (log : list string)
  (r : response) (l : list item) :
  firstn 20 contents = (before ++ i :: after)%list ->
  item_type i = "dir" ->
  c (contents_url owner repo_name (item_path i)) = Replies r ->
  status_code r = 200%Z ->
  body r = JList l ->
  (forall j, In j after -> entry_key j <> entry_key i) ->
  exists t log' sub log1 log2,
    build_file_structure (S (S depth)) c owner repo_name contents log = (Ok t, log')
    /\ build_file_structure (S depth) c owner repo_name (firstn 10 l) log1 = (Ok sub, log2)
    /\ dict_get t (item_name i ++ "/") = Some (Dict sub)
    /\ (length (keys sub) <= 10)%nat.
Proof.
  intros Hcut Hdir Hc Hstatus Hbody Hafter.
  change (build_file_structure (S (S depth)) c owner repo_name contents log)
    with (build_entries (build_file_structure (S depth) c owner repo_name) c owner repo_name
            (firstn 20 contents) DNil log).
  rewrite Hcut.
  destruct (build_entries_stores (build_file_structure (S depth) c owner repo_name)
              c owner repo_name before i after DNil log Hafter)
    as (t1 & log1 & t & log' & _ & Hbuild & Hget).
  destruct (build_file_structure_total depth c owner repo_name (firstn 10 l)
              (log1 ++ [contents_url owner repo_name (item_path i)])%list)
    as (sub & log2 & Hsub).
  exists t, log', sub, (log1 ++ [contents_url owner repo_name (item_path i)])%list, log2.
  split; [exact Hbuild|]. split; [exact Hsub|]. split.
  - unfold entry_value, entry_key in Hget.
    rewrite Hdir, String.eqb_refl, Hc, Hstatus, Z.eqb_refl, Hbody in Hget.
    cbv zeta in Hget. rewrite Hsub in Hget. exact Hget.
  - exact (proj1 (build_file_structure_nested_bounds _ _ _ _ _ _ _ _ Hsub)).
Qed.

Lemma fetcher_nested_directory_witness :
  let src := {| item_type := "dir"; item_name := "src"; item_path := "src";
                item_size := None |} in
  let main := {| item_type := "file"; item_name := "main.py"; item_path := "src/main.py";
                 item_size := Some 42%Z |} in
  let c : client := fun _ => Replies {| status_code := 200; body := JList [main] |} in
  exists t log' sub log1 log2,
    build_file_structure 2 c "octo" "demo" [src] [] = (Ok t, log')
    /\ build_file_structure 1 c "octo" "demo" (firstn 10 [main]) log1 = (Ok sub, log2)
    /\ dict_get t "src/" = Some (Dict sub)
    /\ (length (keys sub) <= 10)%nat.
Proof.
  intros src main c.
  exact (fetcher_nested_directory 0 c "octo" "demo" [src] [] src [] []
           {| status_code := 200; body := JList [main] |} [main]
           eq_refl eq_refl eq_refl eq_refl eq_refl
           (fun j (H : In j []) => match H with end)).
Defined.

Lemma build_file_structure_requests (depth : nat) (c : client) (owner repo_name : string)
  (contents : list item) (log : list string) :
  snd (build_file_structure depth c owner repo_name contents log)
  = (log ++ requested depth c owner repo_name contents)%list.
Proof.
  revert contents log. induction depth as [|depth IH]; intros contents log.
  - simpl. now rewrite app_nil_r.
  - simpl.
    exact (build_entries_requests (build_file_structure depth c owner repo_name) c owner
             repo_name (requested depth c owner repo_name) IH (firstn 20 contents) DNil log).
Qed.

(** The fetcher only appends to the requests made so far, and what it
    appends is the sequence [requested]: for each directory among the first
    twenty entries, in the order of the listing, the URL
    [https://api.github.com/repos/<owner>/<repo_name>/contents/<path>] with
    the path exactly as the listing gives it, followed by the requests of
    the nested call when the answer has status 200 and is a list.  Nothing
    is requested for another entry, and the sequence depends neither on the
    requests made before nor on whether an entry overwrites another. *)
Theorem fetcher_requests (depth : nat) (c : client) (owner repo_name : string)
  (contents : list item) (log : list string) :
  snd (build_file_structure (S depth) c owner repo_name contents log)
  = (log ++ requested (S depth) c owner repo_name contents)%list
  /\ (forall i, In i (firstn 20 contents) -> item_type i = "dir" ->
        In (contents_url owner repo_name (item_path i))
          (requested (S depth) c owner repo_name contents))
  /\ (forall url, In url (requested (S depth) c owner repo_name contents) ->
        In url (map (fun i => contents_url owner repo_name (item_path i))
                  (List.filter (fun i => String.eqb (item_type i) "dir")
                     (firstn 20 contents)))
        \/ exists i r l,
             In i (firstn 20 contents)
             /\ item_type i = "dir"
             /\ c (contents_url owner repo_name (item_path i)) = Replies r
             /\ status_code r = 200%Z
             /\ body r = JList l
             /\ In url (requested depth c owner repo_name (firstn 10 l))).
Proof.
  split; [apply build_file_structure_requests|]. split.
  - intros i Hin Hdir. cbn [requested]. apply in_flat_map. exists i. split; [exact Hin|].
    rewrite Hdir, String.eqb_refl. now left.
  - intros url Hurl. cbn [requested] in Hurl. apply in_flat_map in Hurl.
    destruct Hurl as (i & Hin & Hurl).
    destruct (String.eqb (item_type i) "dir") eqn:Hdir; [|destruct Hurl].
    cbv zeta in Hurl. destruct Hurl as [<- | Hnested].
    + left. apply in_map_iff. exists i. split; [reflexivity|].
      apply filter_In. now split.
    + right. apply String.eqb_eq in Hdir.
      destruct (c (contents_url owner repo_name (item_path i))) as [|r] eqn:Hc;
        [destruct Hnested|].
      destruct (status_code r =? 200)%Z eqn:Hstatus; [|destruct Hnested].
      destruct (body r) as [|o|l] eqn:Hbody; try (destruct Hnested).
      exists i, r, l. apply Z.eqb_eq in Hstatus. repeat split; assumption.
Qed.

(** The path of an entry goes into the URL as it is: a path with [..]
    segments is not resolved before the URL is handed to the client. *)
Example path_used_as_given :
  let up := {| item_type := "dir"; item_name := "x"; item_path := "../../../evil/x";
               item_size := None |} in
  snd (build_file_structure 3 unreachable "octo" "demo" [up] [])
  = ["https://api.github.com/repos/octo/demo/contents/../../../evil/x"].
Proof. reflexivity. Qed.

Lemma keys_dict_set_In (d : pydict) (k k' : string) (v : pyvalue) :
  In k' (keys (dict_set d k v)) <-> k' = k \/ In k' (keys d).
Proof.
  unfold keys. induction d as [|k0 v0 rest IH]; simpl.
  - intuition.
  - destruct (String.eqb k0 k) eqn:E; simpl.
    + apply String.eqb_eq in E. subst k0. intuition.
    + rewrite IH. intuition.
Qed.

Lemma keys_dict_set_NoDup (d : pydict) (k : string) (v : pyvalue) :
  NoDup (keys d) -> NoDup (keys (dict_set d k v)).
Proof.
  induction d as [|k0 v0 rest IH]; intros Hd.
  - change (keys (dict_set DNil k v)) with [k]. apply NoDup_singleton.
  - change (keys (DCons k0 v0 rest)) with (k0 :: keys rest) in Hd.
    apply NoDup_cons in Hd as [Hk0 Hrest]. simpl.
    destruct (String.eqb k0 k) eqn:E.
    + apply String.eqb_eq in E. subst k0.
      change (keys (DCons k v rest)) with (k :: keys rest).
      apply NoDup_cons. now split.
    + apply String.eqb_neq in E.
      change (keys (DCons k0 v0 (dict_set rest k v))) with (k0 :: keys (dict_set rest k v)).
      apply NoDup_cons. split; [|now apply IH].
      rewrite list_elem_of_In, keys_dict_set_In. intros [-> | Hin]; [now apply E|].
      apply Hk0. now apply list_elem_of_In.
Qed.

Lemma nested_keys_unique_dict_set (d : pydict) (k : string) (v : pyvalue) :
  nested_keys_unique d ->
  match v with
  | Dict sub => NoDup (keys sub) /\ nested_keys_unique sub
  | _ => True
  end ->
  nested_keys_unique (dict_set d k v).
Proof.
  intros Hd Hv. induction d as [|k0 v0 rest IH]; simpl in *.
  - split; [exact Hv | exact I].
  - destruct Hd as [Hv0 Hrest]. destruct (String.eqb k0 k); simpl.
    + split; assumption.
    + split; [exact Hv0 | now apply IH].
Qed.

Lemma build_file_structure_unique (depth : nat) (c : client) (owner repo_name : string)
  (contents : list item) (log : list string) (t : pydict) (log' : list string) :
  build_file_structure depth c owner repo_name contents log = (Ok t, log') ->
  NoDup (keys t) /\ nested_keys_unique t.
Proof.
  revert contents log t log'. induction depth as [|depth IH]; intros contents log t log' H.
  - discriminate.
  - simpl in H.
    refine (build_entries_invariant (build_file_structure depth c owner repo_name)
              c owner repo_name
              (fun d => NoDup (keys d) /\ nested_keys_unique d)
              (fun v => match v with
                        | Dict sub => NoDup (keys sub) /\ nested_keys_unique sub
                        | _ => True
                        end)
              _ _ _ _ _ _ _ _ _ _ H).
    + intros d k v [Hn Hu] Hv. split.
      * now apply keys_dict_set_NoDup.
      * now apply nested_keys_unique_dict_set.
    + intros s. exact I.
    + exact I.
    + intros l lg sub lg' Hsub. exact (IH _ _ _ _ Hsub).
    + split; [constructor | exact I].
Qed.

(** The tree the fetcher returns holds each key once, at its top level and
    in every nested dictionary, also when the remote listing repeats a
    name. *)
Theorem fetcher_keys_unique (depth : nat) (c : client) (owner repo_name : string)
  (contents : list item) (log : list string) :
  exists t log',
    build_file_structure (S depth) c owner repo_name contents log = (Ok t, log')
    /\ NoDup (keys t) /\ nested_keys_unique t.
Proof.
  destruct (build_file_structure_total depth c owner repo_name contents log)
    as (t & log' & H).
  exists t, log'. split; [exact H|]. exact (build_file_structure_unique _ _ _ _ _ _ _ _ H).
Qed.

(** A listing without a directory among its first twenty entries is built
    without any request, and the tree has no placeholder. *)
Theorem fetcher_files_only_no_request (depth : nat) (c : client) (owner repo_name : string)
  (contents : list item) (log : list string) :
  Forall (fun j => item_type j <> "dir") (firstn 20 contents) ->
  exists t,
    build_file_structure (S depth) c owner repo_name contents log = (Ok t, log)
    /\ placeholders t = 0%nat
    /\ count_files t = file_leaves t.
Proof.
  intros Hfiles. simpl.
  destruct (build_entries_files_only (build_file_structure depth c owner repo_name)
              c owner repo_name (firstn 20 contents) DNil log Hfiles) as (t & Ht & Hp).
  exists t. split; [exact Ht|]. specialize (Hp eq_refl). split; [exact Hp|].
  rewrite count_files_leaves_placeholders, Hp. lia.
Qed.

Lemma fetcher_files_only_no_request_witness :
  Forall (fun j => item_type j <> "dir") (firstn 20 (plain_listing 3))
  /\ exists t,
       build_file_structure 1 unreachable "octo" "demo" (plain_listing 3) [] = (Ok t, [])
       /\ placeholders t = 0%nat
       /\ count_files t = file_leaves t.
Proof.
  assert (H : Forall (fun j => item_type j <> "dir") (firstn 20 (plain_listing 3)))
    by (repeat constructor; vm_compute; discriminate).
  split; [exact H|].
  exact (fetcher_files_only_no_request 0 unreachable "octo" "demo" (plain_listing 3) [] H).
Defined.

(** ** The technology detector *)

Lemma mem_true_iff (x : string) (s : list string) : mem x s = true <-> In x s.
Proof.
  unfold mem. rewrite existsb_exists. split.
  - intros (y & Hy & E). apply String.eqb_eq in E. now subst y.
  - intros H. exists x. split; [exact H | apply String.eqb_refl].
Qed.

Lemma set_add_keeps (x y : string) (s : list string) :
  mem x s = true -> mem x (set_add y s) = true.
Proof. intros H. rewrite mem_set_add, H. apply orb_true_r. Qed.

Lemma set_add_adds (x : string) (s : list string) : mem x (set_add x s) = true.
Proof. rewrite mem_set_add, String.eqb_refl. reflexivity. Qed.

Lemma set_add_NoDup (x : string) (s : list string) : NoDup s -> NoDup (set_add x s).
Proof.
  intros Hs. unfold set_add. destruct (mem x s) eqn:Hx; [exact Hs|].
  apply NoDup_app. split; [exact Hs|]. split; [|apply NoDup_singleton].
  intros y Hy Hyx. apply list_elem_of_singleton in Hyx. subst y.
  apply list_elem_of_In, mem_true_iff in Hy. congruence.
Qed.

Ltac chain_cases :=
  repeat match goal with
         | |- context [if ?b then _ else _] => destruct b
         end.

Lemma detect_extension_keeps (x name : string) (s : list string) :
  mem x s = true -> mem x (detect_extension name s) = true.
Proof.
  intros H. unfold detect_extension, set_update. chain_cases; cbn [fold_left];
    repeat apply set_add_keeps; exact H.
Qed.

Lemma detect_framework_keeps (x name : string) (s : list string) :
  mem x s = true -> mem x (detect_framework name s) = true.
Proof.
  intros H. unfold detect_framework, set_update. chain_cases; cbn [fold_left];
    repeat apply set_add_keeps; exact H.
Qed.

Lemma detect_extension_NoDup (name : string) (s : list string) :
  NoDup s -> NoDup (detect_extension name s).
Proof.
  intros H. unfold detect_extension, set_update. chain_cases; cbn [fold_left];
    repeat apply set_add_NoDup; exact H.
Qed.

Lemma detect_framework_NoDup (name : string) (s : list string) :
  NoDup s -> NoDup (detect_framework name s).
Proof.
  intros H. unfold detect_framework, set_update. chain_cases; cbn [fold_left];
    repeat apply set_add_NoDup; exact H.
Qed.

(** Scanning never removes a label. *)
Lemma scan_files_keeps (x : string) (structure : pydict) (technologies : list string) :
  mem x technologies = true -> mem x (scan_files structure technologies) = true.
Proof.
  revert technologies.
  induction structure as [s| |d IHd| |key value IHv rest IHrest]
    using pydict_mut
    with (P := fun v => match v with
                        | Dict d => forall technologies,
                            mem x technologies = true ->
                            mem x (scan_files d technologies) = true
                        | _ => True
                        end); try exact I; try assumption; intros technologies H.
  - exact H.
  - simpl. apply IHrest. destruct value as [s| |d].
    + now apply detect_framework_keeps, detect_extension_keeps.
    + now apply detect_framework_keeps, detect_extension_keeps.
    + now apply IHv.
Qed.

Lemma scan_files_NoDup (structure : pydict) (technologies : list string) :
  NoDup technologies -> NoDup (scan_files structure technologies).
Proof.
  revert technologies.
  induction structure as [s| |d IHd| |key value IHv rest IHrest]
    using pydict_mut
    with (P := fun v => match v with
                        | Dict d => forall technologies,
                            NoDup technologies -> NoDup (scan_files d technologies)
                        | _ => True
                        end); try exact I; try assumption; intros technologies H.
  - exact H.
  - simpl. apply IHrest. destruct value as [s| |d].
    + now apply detect_framework_NoDup, detect_extension_NoDup.
    + now apply detect_framework_NoDup, detect_extension_NoDup.
    + now apply IHv.
Qed.

(** What one entry that is not a dictionary adds is in the result, wherever
    the entry lies. *)
Lemma scan_files_entry (P : string -> bool) (x : string) (structure : pydict)
  (technologies : list string) :
  (forall name s, P name = true ->
     mem x (detect_framework name (detect_extension name s)) = true) ->
  has_plain_where P structure = true ->
  mem x (scan_files structure technologies) = true.
Proof.
  intros Hadd. revert technologies.
  induction structure as [s| |d IHd| |key value IHv rest IHrest]
    using pydict_mut
    with (P := fun v => match v with
                        | Dict d => forall technologies,
                            has_plain_where P d = true ->
                            mem x (scan_files d technologies) = true
                        | _ => True
                        end); try exact I; try assumption; intros technologies H.
  - discriminate.
  - simpl in *. apply orb_true_iff in H as [H | H].
    + apply scan_files_keeps. destruct value as [s| |d]; [now apply Hadd..|now apply IHv].
    + now apply IHrest.
Qed.

Lemma has_plain_entry_where (k : string) (structure : pydict) :
  has_plain_entry k structure = has_plain_where (fun key => String.eqb key k) structure.
Proof.
  induction structure as [s| |d IHd| |key value IHv rest IHrest]
    using pydict_mut
    with (P := fun v => match v with
                        | Dict d => has_plain_entry k d
                                    = has_plain_where (fun key => String.eqb key k) d
                        | _ => True
                        end); try exact I; try assumption; try reflexivity.
  simpl. rewrite IHrest. destruct value; simpl in *; congruence.
Qed.

Lemma has_plain_suffix_where (suffix : string) (structure : pydict) :
  has_plain_suffix suffix structure
  = has_plain_where (fun key => Py.endswith key suffix) structure.
Proof.
  induction structure as [s| |d IHd| |key value IHv rest IHrest]
    using pydict_mut
    with (P := fun v => match v with
                        | Dict d => has_plain_suffix suffix d
                                    = has_plain_where (fun key => Py.endswith key suffix) d
                        | _ => True
                        end); try exact I; try assumption; try reflexivity.
  simpl. rewrite IHrest. destruct value; simpl in *; congruence.
Qed.

(** The language reported by the metadata, when it is not empty, is among
    the detected technologies, whatever the tree. *)
Theorem detector_includes_language (file_structure : pydict) (repo : repo_data)
  (l : string) :
  repo_language repo = Some l ->
  l <> "" ->
  In l (detect_technologies file_structure repo).
Proof.
  intros Hl Hne. apply mem_true_iff. unfold detect_technologies, get_language.
  rewrite Hl. destruct l as [|ch l]; [congruence|].
  apply scan_files_keeps, set_add_adds.
Qed.

Lemma detector_includes_language_witness :
  In "Elixir" (detect_technologies front_end
                 {| repo_language := Some "Elixir"; repo_size := None;
                    repo_stargazers_count := None; repo_forks_count := None |}).
Proof.
  apply (detector_includes_language front_end
           {| repo_language := Some "Elixir"; repo_size := None;
              repo_stargazers_count := None; repo_forks_count := None |} "Elixir").
  - reflexivity.
  - discriminate.
Defined.

(** The detector lists no technology twice, however many files give the
    same label. *)
Theorem detector_no_duplicates (file_structure : pydict) (repo : repo_data) :
  NoDup (detect_technologies file_structure repo).
Proof.
  unfold detect_technologies. apply scan_files_NoDup.
  destruct (get_language repo); [apply NoDup_singleton | constructor].
Qed.

(** A file named [package.json], at any depth, gives [Node.js] and [npm]. *)
Theorem detector_package_json (file_structure : pydict) (repo : repo_data) :
  has_plain_entry "package.json" file_structure = true ->
  In "Node.js" (detect_technologies file_structure repo)
  /\ In "npm" (detect_technologies file_structure repo).
Proof.
  intros H. rewrite has_plain_entry_where in H. unfold detect_technologies.
  split; apply mem_true_iff;
    apply (scan_files_entry (fun key => String.eqb key "package.json"));
    try exact H;
    intros name s E; apply String.eqb_eq in E; subst name;
    vm_compute detect_extension; unfold detect_framework, set_update;
    cbn [String.eqb Ascii.eqb Bool.eqb fold_left];
    rewrite ?mem_set_add; cbn [String.eqb Ascii.eqb Bool.eqb orb];
    rewrite ?orb_true_r; reflexivity.
Qed.

Lemma detector_package_json_witness :
  has_plain_entry "package.json" front_end = true
  /\ In "Node.js" (detect_technologies front_end bare)
  /\ In "npm" (detect_technologies front_end bare).
Proof.
  split; [reflexivity|].
  exact (detector_package_json front_end bare eq_refl).
Defined.

(** A file whose name ends in [.tsx] or [.jsx], at any depth, gives [React]
    and [JavaScript]. *)
Theorem detector_react_files (file_structure : pydict) (repo : repo_data) :
  has_plain_suffix ".tsx" file_structure = true
  \/ has_plain_suffix ".jsx" file_structure = true ->
  In "React" (detect_technologies file_structure repo)
  /\ In "JavaScript" (detect_technologies file_structure repo).
Proof.
  intros H. unfold detect_technologies.
  assert (Hadd : forall x, x = "React" \/ x = "JavaScript" ->
                 forall name s,
                   Py.endswith name ".tsx" || Py.endswith name ".jsx" = true ->
                   mem x (detect_framework name (detect_extension name s)) = true).
  { intros x Hx name s E. apply detect_framework_keeps.
    unfold detect_extension. rewrite E. unfold set_update. cbn [fold_left].
    rewrite !mem_set_add. destruct Hx as [-> | ->]; cbn [String.eqb Ascii.eqb Bool.eqb orb];
      rewrite ?orb_true_r; reflexivity. }
  rewrite !has_plain_suffix_where in H. destruct H as [H | H].
  - split; apply mem_true_iff;
      apply (scan_files_entry (fun key => Py.endswith key ".tsx")); try exact H;
      intros name s E; apply Hadd; auto; rewrite E; reflexivity.
  - split; apply mem_true_iff;
      apply (scan_files_entry (fun key => Py.endswith key ".jsx")); try exact H;
      intros name s E; apply Hadd; auto; rewrite E; apply orb_true_r.
Qed.

Lemma detector_react_files_witness :
  (has_plain_suffix ".tsx" front_end = true \/ has_plain_suffix ".jsx" front_end = true)
  /\ In "React" (detect_technologies front_end bare)
  /\ In "JavaScript" (detect_technologies front_end bare).
Proof.
  split; [left; reflexivity|].
  exact (detector_react_files front_end bare (or_introl eq_refl)).
Defined.

(** ** Patterns and recommendations *)

Lemma append_assoc (a b c : string) : (a ++ b) ++ c = a ++ b ++ c.
Proof.
  induction a as [|ch a IH]; [reflexivity|].
  rewrite !append_cons. now rewrite IH.
Qed.

Lemma substring_of_trans (a b c : string) :
  substring_of a b -> substring_of b c -> substring_of a c.
Proof.
  intros (p1 & q1 & ->) (p2 & q2 & ->). exists (p2 ++ p1), (q1 ++ q2).
  now rewrite !append_assoc.
Qed.

Lemma str_in_trans (a b key : string) :
  Py.str_in a b = true -> Py.str_in b key = true -> Py.str_in a key = true.
Proof. rewrite !str_in_spec. apply substring_of_trans. Qed.

Lemma mem_append_if (x : string) (c : bool) (y : string) (xs : list string) :
  mem x (append_if c y xs) = mem x xs || (c && String.eqb x y).
Proof.
  unfold append_if. destruct c.
  - rewrite mem_app. simpl. now rewrite orb_false_r.
  - simpl. now rewrite orb_false_r.
Qed.

Lemma all_keys_top (structure : pydict) (key : string) :
  In key (keys structure) -> In key (all_keys structure).
Proof.
  unfold keys. induction structure as [|k v rest IH]; simpl; [auto|].
  intros [<- | H]; [now left|]. right. apply in_or_app. right. now apply IH.
Qed.

Lemma search_structure_spec (name : string) (structure : pydict) :
  search_structure name structure = true <->
  exists key, In key (all_keys structure) /\ Py.str_in name key = true.
Proof.
  induction structure as [s| |d IHd| |key value IHv rest IHrest]
    using pydict_mut
    with (P := fun v => match v with
                        | Dict d => search_structure name d = true <->
                                    exists key, In key (all_keys d)
                                                /\ Py.str_in name key = true
                        | _ => True
                        end); try exact I; try assumption.
  - simpl. split; [discriminate | intros (k & [] & _)].
  - simpl. destruct (Py.str_in name key) eqn:Hkey.
    + split; [|reflexivity]. intros _. exists key. split; [now left | exact Hkey].
    + assert (Hinner : (match value with
                        | Dict d => search_structure name d
                        | _ => false
                        end) = true <->
                       exists k, In k (match value with
                                       | Dict d => all_keys d
                                       | _ => []
                                       end) /\ Py.str_in name k = true).
      { destruct value as [s| |d]; try exact IHv;
          (split; [discriminate | intros (k & [] & _)]). }
      destruct (match value with
                | Dict d => search_structure name d
                | _ => false
                end) eqn:Hv.
      * split; [|reflexivity]. intros _.
        destruct (proj1 Hinner eq_refl) as (k & Hin & Hk).
        exists k. split; [|exact Hk]. right. apply in_or_app. now left.
      * rewrite IHrest. split.
        -- intros (k & Hin & Hk). exists k. split; [|exact Hk].
           right. apply in_or_app. now right.
        -- intros (k & [<- | Hin] & Hk); [congruence|].
           apply in_app_or in Hin as [Hin | Hin].
           ++ assert (false = true) by (apply Hinner; eauto). discriminate.
           ++ eauto.
Qed.

(** [has_file] searches the whole tree: it holds exactly when some key, of
    a file or of a directory, at any depth, contains the name. *)
Theorem has_file_anywhere (file_structure : pydict) (name : string) :
  has_file file_structure name = true <->
  exists key, In key (all_keys file_structure) /\ substring_of name key.
Proof.
  unfold has_file. rewrite search_structure_spec.
  split; intros (key & Hin & H); exists key; split; try exact Hin; now apply str_in_spec.
Qed.

(** Whatever [has_directory] finds, [has_file] finds too. *)
Theorem has_directory_implies_has_file (file_structure : pydict) (name : string) :
  has_directory file_structure name = true -> has_file file_structure name = true.
Proof.
  unfold has_directory, has_file. rewrite existsb_exists, search_structure_spec.
  intros (key & Hin & H). exists key. split; [now apply all_keys_top | exact H].
Qed.

Lemma has_directory_implies_has_file_witness :
  has_directory front_end "tests" = true /\ has_file front_end "tests" = true.
Proof.
  split; [reflexivity|].
  exact (has_directory_implies_has_file front_end "tests" eq_refl).
Defined.

Lemma sublist_append_if (c : bool) (x : string) (xs l' : list string) :
  l' = (removelast l' ++ [x])%list ->
  xs `sublist_of` removelast l' ->
  append_if c x xs `sublist_of` l'.
Proof.
  intros -> H. rewrite removelast_last in H. unfold append_if. destruct c.
  - now apply sublist_app.
  - now apply sublist_inserts_r.
Qed.

Lemma pattern_labels_NoDup : NoDup pattern_labels.
Proof. apply (bool_decide_unpack _). vm_compute. reflexivity. Qed.

(** The pattern labels come out in the fixed order of the checks, each at
    most once. *)
Theorem patterns_ordered_once (file_structure : pydict) (technologies : list string) :
  analyze_code_patterns file_structure technologies `sublist_of` pattern_labels
  /\ NoDup (analyze_code_patterns file_structure technologies).
Proof.
  assert (Hsub : analyze_code_patterns file_structure technologies
                 `sublist_of` pattern_labels).
  { unfold analyze_code_patterns, pattern_labels. cbv zeta.
    do 18 (apply sublist_append_if; [reflexivity | cbn [removelast]]).
    apply sublist_nil_l. }
  split; [exact Hsub|].
  exact (sublist_NoDup _ _ pattern_labels_NoDup Hsub).
Qed.

Ltac label_condition :=
  cbv zeta; rewrite !mem_append_if;
  change (mem _ []) with false;
  cbn [String.eqb Ascii.eqb Bool.eqb];
  rewrite ?andb_false_r, ?andb_true_r, ?orb_false_r, ?orb_false_l;
  try reflexivity.

(** Each pattern label is emitted exactly when its own condition holds. *)
Theorem patterns_exact (file_structure : pydict) (technologies : list string) :
  let patterns := analyze_code_patterns file_structure technologies in
  let has_directory := has_directory file_structure in
  let has_file := has_file file_structure in
  mem "Component-based architecture" patterns = has_directory "components"
  /\ mem "Page-based routing" patterns = has_directory "pages" || has_directory "views"
  /\ mem "Custom hooks pattern" patterns = has_directory "hooks"
  /\ mem "Service layer architecture" patterns
     = has_directory "services" || has_directory "api"
  /\ mem "Utility functions organization" patterns
     = has_directory "utils" || has_directory "helpers"
  /\ mem "Data modeling patterns" patterns
     = has_directory "models" || has_directory "entities"
  /\ mem "MVC architecture" patterns = has_directory "controllers"
  /\ mem "Middleware pattern" patterns = has_directory "middleware"
  /\ mem "State management patterns" patterns
     = has_directory "store" || has_directory "redux"
  /\ mem "Test-driven development" patterns
     = has_directory "tests" || has_directory "__tests__"
  /\ mem "Containerization patterns" patterns = has_file "docker"
  /\ mem "Environment configuration" patterns = has_file ".env"
  /\ mem "Documentation practices" patterns = has_file "README"
  /\ mem "Type-safe development" patterns = mem "TypeScript" technologies
  /\ mem "React functional components" patterns = mem "React" technologies
  /\ mem "Vue composition patterns" patterns = mem "Vue.js" technologies
  /\ mem "Full-stack React framework" patterns = mem "Next.js" technologies
  /\ mem "Utility-first CSS" patterns = mem "Tailwind CSS" technologies.
Proof.
  unfold analyze_code_patterns. repeat split; label_condition.
Qed.

Lemma tests_label_condition (file_structure : pydict) (technologies : list string) :
  mem "Test-driven development" (analyze_code_patterns file_structure technologies)
  = has_directory file_structure "tests" || has_directory file_structure "__tests__".
Proof. unfold analyze_code_patterns. label_condition. Qed.

Lemma has_directory_weaken (file_structure : pydict) (a b : string) :
  Py.str_in a b = true ->
  has_directory file_structure b = true -> has_directory file_structure a = true.
Proof.
  intros Hab. unfold has_directory. rewrite !existsb_exists.
  intros (key & Hin & H). exists key. split; [exact Hin|]. exact (str_in_trans _ _ _ Hab H).
Qed.

Lemma recommendations_ok (file_structure : pydict) (technologies : list string)
  (repo : repo_data) (recommendations : list string) :
  generate_recommendations file_structure technologies repo = Ok recommendations ->
  mem "Add unit tests to improve code reliability" recommendations
  = negb (has_directory file_structure "test")
    && negb (has_directory file_structure "__tests__")
  /\ mem "Add a comprehensive README.md file" recommendations
     = negb (has_file file_structure "README")
  /\ mem "Set up GitHub Actions for CI/CD" recommendations
     = negb (has_directory file_structure ".github").
Proof.
  unfold generate_recommendations. cbv zeta.
  destruct (get_gt (repo_stargazers_count repo) 100) as [popular|e]; [|discriminate].
  simpl rbind. intros [= <-].
  destruct (mem "JavaScript" technologies || mem "TypeScript" technologies);
    repeat split; label_condition.
Qed.

(** A key containing [README] anywhere in the tree suppresses the
    recommendation to add one, and only that does. *)
Theorem readme_recommendation (file_structure : pydict) (technologies : list string)
  (repo : repo_data) (recommendations : list string) :
  generate_recommendations file_structure technologies repo = Ok recommendations ->
  (In "Add a comprehensive README.md file" recommendations <->
   ~ exists key, In key (all_keys file_structure) /\ substring_of "README" key).
Proof.
  intros H. destruct (recommendations_ok _ _ _ _ H) as (_ & Hreadme & _).
  rewrite <- mem_true_iff, Hreadme, negb_true_iff, <- not_true_iff_false.
  unfold has_file. rewrite search_structure_spec.
  split; intros Hn (key & Hin & Hk); apply Hn; exists key; split; try exact Hin;
    now apply str_in_spec.
Qed.

Lemma readme_recommendation_witness :
  generate_recommendations front_end (detect_technologies front_end bare) bare
  = Ok ["Add a comprehensive README.md file"; "Set up GitHub Actions for CI/CD";
        "Add environment configuration files";
        "Consider containerizing the application with Docker";
        "Consider migrating to TypeScript for better type safety";
        "Add ESLint for code quality enforcement";
        "Add Prettier for consistent code formatting";
        "Regular dependency updates and security audits";
        "Implement code splitting and lazy loading"]
  /\ ~ exists key, In key (all_keys front_end) /\ substring_of "README" key.
Proof.
  split; [reflexivity|].
  apply (proj1 (readme_recommendation front_end (detect_technologies front_end bare) bare
                  _ eq_refl)).
  now left.
Defined.

(** The label [Test-driven development] and the recommendation to add unit
    tests never come together. *)
Theorem tests_pattern_excludes_recommendation (file_structure : pydict)
  (technologies : list string) (repo : repo_data) (recommendations : list string) :
  In "Test-driven development" (analyze_code_patterns file_structure technologies) ->
  generate_recommendations file_structure technologies repo = Ok recommendations ->
  ~ In "Add unit tests to improve code reliability" recommendations.
Proof.
  intros Hpat Hrec.
  apply mem_true_iff in Hpat.
  rewrite (tests_label_condition file_structure technologies) in Hpat.
  destruct (recommendations_ok _ _ _ _ Hrec) as (Htests & _).
  rewrite <- mem_true_iff, Htests. intros Hboth.
  apply andb_true_iff in Hboth as [H1 H2]. apply negb_true_iff in H1, H2.
  apply orb_true_iff in Hpat as [Hpat | Hpat].
  - assert (has_directory file_structure "test" = true)
      by (apply (has_directory_weaken _ "test" "tests"); [reflexivity | exact Hpat]).
    congruence.
  - congruence.
Qed.

Lemma tests_pattern_excludes_recommendation_witness :
  In "Test-driven development"
    (analyze_code_patterns front_end (detect_technologies front_end bare))
  /\ ~ In "Add unit tests to improve code reliability"
         ["Add a comprehensive README.md file"; "Set up GitHub Actions for CI/CD";
          "Add environment configuration files";
          "Consider containerizing the application with Docker";
          "Consider migrating to TypeScript for better type safety";
          "Add ESLint for code quality enforcement";
          "Add Prettier for consistent code formatting";
          "Regular dependency updates and security audits";
          "Implement code splitting and lazy loading"].
Proof.
  assert (H : In "Test-driven development"
                (analyze_code_patterns front_end (detect_technologies front_end bare)))
    by now left.
  split; [exact H|].
  exact (tests_pattern_excludes_recommendation front_end
           (detect_technologies front_end bare) bare _ H eq_refl).
Defined.

(** ** The scorer *)

Section ScoreOrder.

Local Open Scope Q_scope.

Lemma add_le (x x' y y' : Q) :
  0 <= x -> 0 <= y -> x <= x' -> y <= y' -> Float.add x y <= Float.add x' y'.
Proof. intros. apply round64_le; lra. Qed.

Lemma min_le (a x x' : Q) : x <= x' -> Float.min a x <= Float.min a x'.
Proof.
  intros H. unfold Float.min.
  destruct (Qle_bool a x) eqn:E1, (Qle_bool a x') eqn:E2;
    try apply Qle_bool_iff in E1; try apply Qle_bool_iff in E2; try lra.
  apply Qnot_lt_le. intros Hlt.
  assert (Qle_bool a x = true) by (apply Qle_bool_iff; lra). congruence.
Qed.

Lemma truediv_le (a a' : nat) (b : Z) :
  (0 < b)%Z -> (a <= a')%nat ->
  Float.truediv (Z.of_nat a) b <= Float.truediv (Z.of_nat a') b.
Proof.
  intros Hb Ha. assert (Hbq : 0 < inject_Z b) by (rewrite <- (Zlt_Qlt 0); exact Hb).
  apply round64_le.
  - apply Qle_shift_div_l; [exact Hbq|]. rewrite Qmult_0_l, <- (Zle_Qle 0). lia.
  - apply Qmult_le_compat_r; [rewrite <- Zle_Qle; lia|].
    apply Qlt_le_weak, Qinv_lt_0_compat, Hbq.
Qed.

Lemma rint_nonneg (x : Q) : 0 <= x -> (0 <= Float.rint x)%Z.
Proof. intros H. rewrite <- (rint_Z 0). now apply rint_le. Qed.

Lemma round1_le (x y : Q) : 0 <= x -> x <= y -> Float.round1 x <= Float.round1 y.
Proof.
  intros Hx Hxy. unfold Float.round1.
  assert (H0 : (0 <= Float.rint (x * 10))%Z) by (apply rint_nonneg; lra).
  assert (Hle : (Float.rint (x * 10) <= Float.rint (y * 10))%Z) by (apply rint_le; lra).
  rewrite Zle_Qle in H0, Hle. change (inject_Z 0) with 0 in H0. apply round64_le.
  - apply Qle_shift_div_l; [reflexivity | lra].
  - apply Qmult_le_compat_r; [exact Hle | discriminate].
Qed.

Ltac score_nonneg :=
  repeat match goal with
         | |- 0 <= (if ?b then _ else _) => destruct b
         | |- 0 <= Float.add _ _ => apply add_nonneg
         | |- 0 <= Float.min _ _ => apply min_nonneg
         | |- 0 <= Float.truediv _ _ => apply truediv_nonneg
         | |- 0 <= Float.sum _ => apply sum_nonneg
         end; try lra; try lia.

Ltac score_le :=
  repeat match goal with
         | |- Float.round1 _ <= Float.round1 _ => apply round1_le
         | |- Float.min _ _ <= Float.min _ _ => apply min_le
         | |- (if ?b then _ else _) <= (if ?b then _ else _) => destruct b
         | |- Float.add _ _ <= Float.add _ _ => apply add_le
         | |- Float.truediv _ _ <= Float.truediv _ _ => apply truediv_le
         end.

Lemma advanced_terms_nonneg (technologies : list string) :
  Forall (fun x => 0 <= x)
    (map (fun _ : string => Float.literal 3 10)
       (List.filter (fun tech => mem tech advanced_tech) technologies)).
Proof.
  apply List.Forall_forall. intros x Hx.
  apply in_map_iff in Hx as (tech & <- & _). vm_compute. discriminate.
Qed.

(** With the same technologies and metadata, a tree that counts more files
    never scores lower. *)
Theorem score_grows_with_files (small large : pydict) (technologies : list string)
  (repo : repo_data) (low high : Q) :
  (count_files small <= count_files large)%nat ->
  calculate_complexity_score small technologies repo = Ok low ->
  calculate_complexity_score large technologies repo = Ok high ->
  low <= high.
Proof.
  intros Hcount. unfold calculate_complexity_score. cbv zeta.
  destruct (get_gt (repo_size repo) 1000) as [b1|]; [|discriminate].
  destruct (get_gt (repo_size repo) 10000) as [b2|]; [|discriminate].
  destruct (get_gt (repo_stargazers_count repo) 10) as [b3|]; [|discriminate].
  destruct (get_gt (repo_forks_count repo) 5) as [b4|]; [|discriminate].
  simpl rbind. intros [= <-] [= <-].
  pose proof (advanced_terms_nonneg technologies) as Hadv.
  score_le; try (apply Qle_refl); try exact Hcount; try lia; score_nonneg;
    try (apply Qle_refl); try exact Hadv.
Qed.

Lemma score_grows_with_files_witness :
  (count_files front_end <= count_files (DCons "extra.txt" (Str "1 bytes") front_end))%nat
  /\ exists low high,
       calculate_complexity_score front_end ["React"] bare = Ok low
       /\ calculate_complexity_score (DCons "extra.txt" (Str "1 bytes") front_end)
            ["React"] bare = Ok high
       /\ low <= high.
Proof.
  assert (H : (count_files front_end
               <= count_files (DCons "extra.txt" (Str "1 bytes") front_end))%nat)
    by (vm_compute; lia).
  split; [exact H|]. eexists. eexists. split; [reflexivity|]. split; [reflexivity|].
  exact (score_grows_with_files front_end (DCons "extra.txt" (Str "1 bytes") front_end)
           ["React"] bare _ _ H eq_refl eq_refl).
Defined.

End ScoreOrder.

(** ** The request handlers *)

Lemma listed_iff (repository_id : string) (st : storage) (a : RepositoryAnalysis.t) :
  In a (get_analyses_by_repository repository_id st) <->
  exists analysis_id,
    analyses st !! analysis_id = Some a
    /\ RepositoryAnalysis.repository_id a = repository_id.
Proof.
  unfold get_analyses_by_repository. rewrite filter_In, in_map_iff, String.eqb_eq. split.
  - intros [([analysis_id a'] & <- & Hin) Hid]. exists analysis_id. split; [|exact Hid].
    now apply elem_of_map_to_list, list_elem_of_In.
  - intros (analysis_id & Hget & Hid). split; [|exact Hid].
    exists (analysis_id, a). split; [reflexivity|].
    now apply list_elem_of_In, elem_of_map_to_list.
Qed.

Lemma no_analysis_listed (repository_id : string) (st : storage) :
  (forall analysis_id a, analyses st !! analysis_id = Some a ->
     RepositoryAnalysis.repository_id a <> repository_id) ->
  get_analyses_by_repository repository_id st = [].
Proof.
  intros Hnone. destruct (get_analyses_by_repository repository_id st) as [|a l] eqn:E;
    [reflexivity|].
  assert (Hin : In a (get_analyses_by_repository repository_id st))
    by (rewrite E; now left).
  apply listed_iff in Hin as (analysis_id & Hget & Hid).
  now destruct (Hnone _ _ Hget).
Qed.

(** A successful deletion removes the record and every analysis of the
    repository, leaves the other records and the analyses of the other
    repositories as they were, and a second deletion answers 404. *)
Theorem delete_cascades (repository_id : string) (st st' : storage) :
  delete_repository repository_id st = Some st' ->
  get_repository repository_id st' = None
  /\ get_analyses_by_repository repository_id st' = []
  /\ (forall other, other <> repository_id ->
        get_repository other st' = get_repository other st)
  /\ (forall analysis_id a,
        analyses st !! analysis_id = Some a ->
        RepositoryAnalysis.repository_id a <> repository_id ->
        get_analysis analysis_id st' = Some a)
  /\ delete_repository repository_id st' = None.
Proof.
  unfold delete_repository, get_repository, get_analysis.
  destruct (repositories st !! repository_id) as [r|] eqn:Hr; [|discriminate].
  intros [= <-]. cbn [repositories analyses].
  assert (Hgone : delete repository_id (repositories st) !! repository_id = None)
    by apply lookup_delete_eq.
  split; [exact Hgone|]. split; [|split; [|split]].
  - apply no_analysis_listed. cbn [analyses]. intros analysis_id a Hget.
    apply map_lookup_filter_Some in Hget as [_ Hid]. exact Hid.
  - intros other Hother. now apply lookup_delete_ne.
  - intros analysis_id a Hget Hid. now apply map_lookup_filter_Some.
  - now rewrite Hgone.
Qed.

Lemma delete_cascades_witness :
  exists st',
    delete_repository "r1" one_registered = Some st'
    /\ get_repository "r1" st' = None
    /\ delete_repository "r1" st' = None.
Proof.
  eexists. split; [reflexivity|].
  destruct (delete_cascades "r1" one_registered _ eq_refl) as (Hgone & _ & _ & _ & Htwice).
  split; [exact Hgone | exact Htwice].
Defined.

(** An update of a registered repository replaces the URL, the name and
    the description only: the status of the job, the identifier and the
    creation time stay, and so do the analyses. *)
Theorem update_keeps_status (repository_id : string) (now : Z) (url name : string)
  (description : option string) (st st' : storage) (updated : GitRepository.t) :
  update_repository repository_id now url name description st = Some (updated, st') ->
  get_repository repository_id st' = Some updated
  /\ status_of repository_id st' = status_of repository_id st
  /\ GitRepository.url updated = url
  /\ GitRepository.name updated = name
  /\ (GitRepository.id <$> get_repository repository_id st) = Some (GitRepository.id updated)
  /\ (GitRepository.created_at <$> get_repository repository_id st)
     = Some (GitRepository.created_at updated)
  /\ analyses st' = analyses st.
Proof.
  unfold update_repository, get_repository, status_of.
  destruct (repositories st !! repository_id) as [r|] eqn:Hr; [|discriminate].
  intros [= <- <-]. cbn [repositories analyses]. rewrite lookup_insert_eq.
  repeat split.
Qed.

Lemma update_keeps_status_witness :
  exists updated st',
    update_repository "r1" 9 "https://github.com/octo/other" "other" None one_registered
    = Some (updated, st')
    /\ status_of "r1" st' = status_of "r1" one_registered.
Proof.
  eexists. eexists. split; [reflexivity|].
  exact (proj1 (proj2 (update_keeps_status "r1" 9 "https://github.com/octo/other" "other"
                         None one_registered _ _ eq_refl))).
Defined.

(** Registering under a fresh identifier and deleting again gives back the
    stores, when no analysis is already keyed to that identifier. *)
Theorem create_then_delete (repository_id : string) (now : Z) (url name : string)
  (description : option string) (st : storage) :
  repositories st !! repository_id = None ->
  (forall analysis_id a, analyses st !! analysis_id = Some a ->
     RepositoryAnalysis.repository_id a <> repository_id) ->
  delete_repository repository_id
    (snd (create_repository repository_id now url name description st)) = Some st.
Proof.
  intros Hfresh Hnone. unfold create_repository, delete_repository.
  cbn [snd repositories analyses]. rewrite lookup_insert_eq. f_equal.
  destruct st as [repos ans]. cbn [repositories analyses] in *. f_equal.
  - now apply delete_insert_id.
  - apply map_filter_id. intros analysis_id a Hget. exact (Hnone _ _ Hget).
Qed.

Lemma create_then_delete_witness :
  repositories one_registered !! "r2" = None
  /\ delete_repository "r2"
       (snd (create_repository "r2" 3 "https://github.com/octo/two" "two" None
               one_registered)) = Some one_registered.
Proof.
  split; [reflexivity|].
  apply (create_then_delete "r2" 3 "https://github.com/octo/two" "two" None one_registered).
  - reflexivity.
  - intros analysis_id a H. vm_compute in H. discriminate.
Defined.

(** ** The analysis of one repository *)

(** When the metadata is served as an object and the root listing is
    answered with another status than 200, the analysis is the minimal one,
    built from the metadata alone after exactly these two requests. *)
Theorem minimal_analysis_path (depth : nat) (c : client) (owner repo_name : string)
  (log : list string) (r1 r2 : response) (repo : repo_data) :
  c (api ++ owner ++ "/" ++ repo_name) = Replies r1 ->
  status_code r1 = 200%Z ->
  body r1 = JObject repo ->
  c (api ++ owner ++ "/" ++ repo_name ++ "/contents") = Replies r2 ->
  status_code r2 <> 200%Z ->
  analyze_github_repository depth c owner repo_name log
  = (Ok (DCons "README.md" (Str "Repository content not accessible") DNil,
         [default "Unknown" (get_language repo)],
         ["Repository structure not analyzable"],
         ["Repository appears to be empty or private"; "Add public content for analysis"],
         1%Q),
     app log [api ++ owner ++ "/" ++ repo_name;
              api ++ owner ++ "/" ++ repo_name ++ "/contents"]).
Proof.
  intros Hc1 Hs1 Hb1 Hc2 Hs2. apply Z.eqb_neq in Hs2.
  unfold analyze_github_repository, io_try, analyze_github_body, io_bind, http_get,
    json_of, as_object, io_ret.
  rewrite Hc1, Hs1, Z.eqb_refl, Hb1. cbn [negb]. rewrite Hc2, Hs2. cbn [negb].
  rewrite <- app_assoc. unfold create_minimal_analysis.
  destruct (get_language repo); reflexivity.
Qed.

Lemma minimal_analysis_path_witness :
  exists a,
    analyze_github_repository 100 listing_refused "octo" "demo" []
    = (Ok a, ["https://api.github.com/repos/octo/demo";
              "https://api.github.com/repos/octo/demo/contents"])
    /\ a.1.1.1.2 = ["Go"].
Proof.
  eexists. split.
  - refine (minimal_analysis_path 100 listing_refused "octo" "demo" []
              {| status_code := 200;
                 body := JObject {| repo_language := Some "Go"; repo_size := None;
                                    repo_stargazers_count := None;
                                    repo_forks_count := None |} |}
              {| status_code := 403; body := JInvalid |} _
              eq_refl eq_refl eq_refl eq_refl _).
    simpl. discriminate.
  - reflexivity.
Defined.

(** The comparison of JSON [null] with a number raises in the two
    heuristics that read the numeric fields of the metadata. *)
Lemma generate_recommendations_null (file_structure : pydict) (technologies : list string)
  (repo : repo_data) :
  is_null (repo_stargazers_count repo) = true ->
  generate_recommendations file_structure technologies repo = Raise TypeError.
Proof.
  intros Hnull. unfold generate_recommendations. cbv zeta.
  destruct (repo_stargazers_count repo) as [[|n]|]; try discriminate. reflexivity.
Qed.

Lemma calculate_complexity_score_null (file_structure : pydict)
  (technologies : list string) (repo : repo_data) :
  is_null (repo_size repo) || is_null (repo_stargazers_count repo)
  || is_null (repo_forks_count repo) = true ->
  calculate_complexity_score file_structure technologies repo = Raise TypeError.
Proof.
  intros Hnull. unfold calculate_complexity_score. cbv zeta.
  destruct (repo_size repo) as [[|n1]|], (repo_stargazers_count repo) as [[|n2]|],
    (repo_forks_count repo) as [[|n3]|]; try discriminate; reflexivity.
Qed.

(** A JSON [null] in the size, the star count or the fork count of the
    metadata makes the whole analysis fall back, unless the root listing is
    answered with another status than 200: the tree is fetched, a heuristic
    raises on the comparison of [None] with a number, and the handler of
    [analyze_github_repository] returns the fallback analysis in place of
    what was computed from the tree. *)
Theorem null_metadata_falls_back (depth : nat) (c : client) (owner repo_name : string)
  (log : list string) (r : response) (repo : repo_data) :
  c (api ++ owner ++ "/" ++ repo_name) = Replies r ->
  status_code r = 200%Z ->
  body r = JObject repo ->
  is_null (repo_size repo) || is_null (repo_stargazers_count repo)
  || is_null (repo_forks_count repo) = true ->
  (forall r2, c (api ++ owner ++ "/" ++ repo_name ++ "/contents") = Replies r2 ->
     status_code r2 = 200%Z) ->
  fst (analyze_github_repository depth c owner repo_name log)
  = Ok (create_fallback_analysis repo_name).
Proof.
  intros Hc Hstatus Hbody Hnull Hlisting.
  unfold analyze_github_repository, io_try, analyze_github_body, io_bind, http_get.
  rewrite Hc, Hstatus. cbn [Z.eqb Pos.eqb negb]. unfold json_of at 1. rewrite Hbody.
  unfold io_ret at 1.
  destruct (c (api ++ owner ++ "/" ++ repo_name ++ "/contents")) as [|r2] eqn:Hc2;
    [reflexivity|].
  rewrite (Hlisting r2 eq_refl). cbn [Z.eqb Pos.eqb negb].
  unfold json_of. destruct (body r2) as [|o|l]; try reflexivity.
  unfold io_ret at 1. unfold as_list, io_ret at 1.
  destruct (build_file_structure depth c owner repo_name l _) as [[t|e] log2];
    [|reflexivity].
  unfold as_object, io_ret at 1. unfold io_lift.
  destruct (generate_recommendations t (detect_technologies t repo) repo)
    as [recs|e]; [|reflexivity].
  now rewrite calculate_complexity_score_null.
Qed.

Lemma null_metadata_falls_back_witness :
  let metadata :=
    {| repo_language := Some "Python"; repo_size := Some (JInt 12);
       repo_stargazers_count := Some JNull; repo_forks_count := Some (JInt 0) |} in
  null_stars (api ++ "octo" ++ "/" ++ "demo")
  = Replies {| status_code := 200; body := JObject metadata |}
  /\ is_null (repo_size metadata) || is_null (repo_stargazers_count metadata)
     || is_null (repo_forks_count metadata) = true
  /\ fst (analyze_github_repository 100 null_stars "octo" "demo" [])
     = Ok (create_fallback_analysis "demo").
Proof.
  intros metadata. split; [reflexivity|]. split; [reflexivity|].
  refine (null_metadata_falls_back 100 null_stars "octo" "demo" []
            {| status_code := 200; body := JObject metadata |} metadata
            eq_refl eq_refl eq_refl eq_refl _).
  intros r2 H. vm_compute in H. injection H as <-. reflexivity.
Defined.

Section ScoreOutcome.

Local Open Scope Q_scope.

Lemma score_range_of_ok (file_structure : pydict) (technologies : list string)
  (repo : repo_data) (score : Q) :
  calculate_complexity_score file_structure technologies repo = Ok score ->
  1 <= score /\ score <= 10 /\ Float.round1 score == score.
Proof.
  unfold calculate_complexity_score. cbv zeta.
  destruct (get_gt (repo_size repo) 1000) as [b1|]; [|discriminate].
  destruct (get_gt (repo_size repo) 10000) as [b2|]; [|discriminate].
  destruct (get_gt (repo_stargazers_count repo) 10) as [b3|]; [|discriminate].
  destruct (get_gt (repo_forks_count repo) 5) as [b4|]; [|discriminate].
  simpl rbind. intros [= <-].
  pose proof (advanced_terms_nonneg technologies) as Hadv.
  apply round1_range; apply min_10_range; apply add_ge_1;
    try (apply sum_nonneg; exact Hadv);
    repeat match goal with
           | |- 1 <= (if ?b then _ else _) => destruct b
           | |- 1 <= Float.add _ _ => apply add_ge_1
           | |- 0 <= Float.min _ _ => apply min_nonneg
           | |- 0 <= Float.truediv _ _ => apply truediv_nonneg
           end; try lra; try lia.
Qed.

Lemma analyze_github_repository_scored (depth : nat) (c : client)
  (owner repo_name : string) (log : list string) :
  exists a log',
    analyze_github_repository depth c owner repo_name log = (Ok a, log')
    /\ 1 <= a.2 /\ a.2 <= 10 /\ Float.round1 a.2 == a.2.
Proof.
  assert (Hone : 1 <= 1 /\ 1 <= 10 /\ Float.round1 1 == 1)
    by (repeat split; try discriminate; vm_compute; reflexivity).
  unfold analyze_github_repository, io_try.
  destruct (analyze_github_body depth c owner repo_name log) as [[a|e] log'] eqn:Hbody.
  - exists a, log'. split; [reflexivity|].
    unfold analyze_github_body, io_bind, http_get, json_of, as_object, as_list, io_lift,
      io_ret, io_raise in Hbody.
    repeat match type of Hbody with
           | context [match ?x with _ => _ end] => destruct x eqn:?; try discriminate
           end;
      injection Hbody as <- _; try exact Hone; cbn [snd];
      eapply score_range_of_ok; eassumption.
  - exists (create_fallback_analysis repo_name), log'. split; [reflexivity|]. exact Hone.
Qed.

(** Whatever the remote API answers, [analyze_github_repository] returns an
    analysis, never an exception, and the score of that analysis lies
    between 1.0 and 10.0 and has one decimal. *)
Theorem analysis_always_scored (depth : nat) (c : client) (owner repo_name : string)
  (log : list string) :
  exists a log',
    analyze_github_repository depth c owner repo_name log = (Ok a, log')
    /\ 1 <= a.2 /\ a.2 <= 10 /\ Float.round1 a.2 == a.2.
Proof. exact (analyze_github_repository_scored depth c owner repo_name log). Qed.

End ScoreOutcome.

(** ** The background task, continued *)

Section RunOutcome.

Local Open Scope Q_scope.

(** Once the reference has passed the guard, a run that no other handler
    disturbs cannot end [failed]: whatever the remote API does, the job of a
    registered repository ends [completed] and an analysis with a score
    between 1.0 and 10.0 is stored for it. *)
Theorem accepted_reference_always_completes (c : client) (depth : nat)
  (analysis_id : string) (now : Z) (repository_id : string) (parsed_url : ParseResult)
  (owner repo_name : string) (st : storage) (log : list string) :
  is_Some (repositories st !! repository_id) ->
  parse_reference parsed_url = Ok (owner, repo_name) ->
  let st' :=
    fst (analyze_repository c depth analysis_id now undisturbed repository_id
           (Ok parsed_url) st log) in
  status_of repository_id st' = Some "completed"
  /\ exists a,
       get_analysis analysis_id st' = Some a
       /\ RepositoryAnalysis.id a = analysis_id
       /\ RepositoryAnalysis.repository_id a = repository_id
       /\ 1 <= RepositoryAnalysis.complexity_score a
       /\ RepositoryAnalysis.complexity_score a <= 10.
Proof.
  intros Hreg Hparse.
  destruct (analyze_github_repository_scored depth c owner repo_name log)
    as (a & log' & Hfetch & Hlo & Hhi & _).
  rewrite (analyze_repository_fetched _ _ _ _ _ _ _ _ _ _ _ _ _ Hparse Hfetch).
  unfold undisturbed, get_analysis. cbn [fst]. split.
  - apply status_of_set_status.
    destruct a as [[[[fs techs] pats] recs] score]. unfold record_analysis.
    cbn [repositories]. now apply set_status_present.
  - eexists. split.
    + unfold set_status at 1. cbn [analyses]. apply record_analysis_lookup.
    + cbn. repeat split; assumption.
Qed.

Lemma accepted_reference_always_completes_witness :
  is_Some (repositories one_registered !! "r1")
  /\ parse_reference octo_demo = Ok ("octo", "demo")
  /\ status_of "r1"
       (fst (analyze_repository null_stars 100 "a1" 7 undisturbed "r1" (Ok octo_demo)
               one_registered [])) = Some "completed".
Proof.
  assert (Hreg : is_Some (repositories one_registered !! "r1"))
    by (vm_compute; eexists; reflexivity).
  split; [exact Hreg|]. split; [reflexivity|].
  exact (proj1 (accepted_reference_always_completes null_stars 100 "a1" 7 "r1" octo_demo
                  "octo" "demo" one_registered [] Hreg eq_refl)).
Defined.

End RunOutcome.

Lemma set_status_other (repository_id status other : string) (st : storage) :
  other <> repository_id ->
  repositories (set_status repository_id status st) !! other = repositories st !! other.
Proof. intros H. unfold set_status. cbn [repositories]. now apply lookup_alter_ne. Qed.

Lemma record_analysis_repositories (analysis_id repository_id : string) (now : Z)
  (a : analysis) (st : storage) :
  repositories (record_analysis analysis_id repository_id now a st) = repositories st.
Proof. destruct a as [[[[fs techs] pats] recs] score]. reflexivity. Qed.

Lemma record_analysis_other (analysis_id repository_id other : string) (now : Z)
  (a : analysis) (st : storage) :
  other <> analysis_id ->
  analyses (record_analysis analysis_id repository_id now a st) !! other
  = analyses st !! other.
Proof.
  intros H. destruct a as [[[[fs techs] pats] recs] score]. unfold record_analysis.
  cbn [analyses]. now apply lookup_insert_ne.
Qed.

(** The shape of the stores after an undisturbed run. *)
Lemma analyze_repository_cases (c : client) (depth : nat) (analysis_id : string) (now : Z)
  (repository_id : string) (parsed_url : result ParseResult) (st : storage)
  (log : list string) :
  let st' :=
    fst (analyze_repository c depth analysis_id now undisturbed repository_id
           parsed_url st log) in
  st' = set_status repository_id "failed" (set_status repository_id "analyzing" st)
  \/ exists a,
       st' = set_status repository_id "completed"
               (record_analysis analysis_id repository_id now a
                  (set_status repository_id "analyzing" st)).
Proof.
  unfold analyze_repository, undisturbed.
  destruct (parsed_url <- parsed_url ;; parse_reference parsed_url) as [[owner repo_name]|e];
    [|now left].
  destruct (analyze_github_repository depth c owner repo_name log) as [[a|e] log'];
    [right; eauto | now left].
Qed.

(** A run touches one record and one analysis key: every other repository
    and every analysis stored under another key is as before, and of its own
    record it changes nothing but the status. *)
Theorem run_touches_only_its_own (c : client) (depth : nat) (analysis_id : string)
  (now : Z) (repository_id : string) (parsed_url : result ParseResult) (st : storage)
  (log : list string) :
  let st' :=
    fst (analyze_repository c depth analysis_id now undisturbed repository_id
           parsed_url st log) in
  (forall other, other <> repository_id ->
     get_repository other st' = get_repository other st)
  /\ (forall other, other <> analysis_id -> get_analysis other st' = get_analysis other st)
  /\ (GitRepository.url <$> get_repository repository_id st')
     = (GitRepository.url <$> get_repository repository_id st)
  /\ (GitRepository.name <$> get_repository repository_id st')
     = (GitRepository.name <$> get_repository repository_id st)
  /\ (GitRepository.created_at <$> get_repository repository_id st')
     = (GitRepository.created_at <$> get_repository repository_id st).
Proof.
  intros st'. unfold get_repository, get_analysis.
  assert (Hfields : forall s1 s2 (st0 : storage) (f : GitRepository.t -> string + option Z),
             (forall s r, f (GitRepository.with_status s r) = f r) ->
             (f <$> repositories (set_status repository_id s1
                                    (set_status repository_id s2 st0)) !! repository_id)
             = (f <$> repositories st0 !! repository_id)).
  { intros s1 s2 st0 f Hf. unfold set_status. cbn [repositories].
    rewrite !lookup_alter_eq. destruct (repositories st0 !! repository_id); simpl;
      [now rewrite !Hf | reflexivity]. }
  destruct (analyze_repository_cases c depth analysis_id now repository_id parsed_url st log)
    as [H | [a H]]; fold st' in H; rewrite H; clear H.
  - split; [|split; [|split; [|split]]].
    + intros other Ho. now rewrite !set_status_other.
    + reflexivity.
    + pose proof (Hfields "failed" "analyzing" st (fun r => inl (GitRepository.url r))
                    (fun _ _ => eq_refl)) as Hf.
      destruct (repositories _ !! repository_id), (repositories st !! repository_id);
        simpl in *; congruence.
    + pose proof (Hfields "failed" "analyzing" st (fun r => inl (GitRepository.name r))
                    (fun _ _ => eq_refl)) as Hf.
      destruct (repositories _ !! repository_id), (repositories st !! repository_id);
        simpl in *; congruence.
    + pose proof (Hfields "failed" "analyzing" st
                    (fun r => inr (GitRepository.created_at r)) (fun _ _ => eq_refl)) as Hf.
      destruct (repositories _ !! repository_id), (repositories st !! repository_id);
        simpl in *; congruence.
  - assert (Hrepos : repositories
                       (set_status repository_id "completed"
                          (record_analysis analysis_id repository_id now a
                             (set_status repository_id "analyzing" st)))
                     = repositories
                         (set_status repository_id "completed"
                            (set_status repository_id "analyzing" st))).
    { unfold set_status at 1 3. cbn [repositories].
      now rewrite record_analysis_repositories. }
    rewrite Hrepos. split; [|split; [|split; [|split]]].
    + intros other Ho. now rewrite !set_status_other.
    + intros other Ho. unfold set_status at 1. cbn [analyses].
      now rewrite record_analysis_other.
    + pose proof (Hfields "completed" "analyzing" st (fun r => inl (GitRepository.url r))
                    (fun _ _ => eq_refl)) as Hf.
      destruct (repositories _ !! repository_id), (repositories st !! repository_id);
        simpl in *; congruence.
    + pose proof (Hfields "completed" "analyzing" st (fun r => inl (GitRepository.name r))
                    (fun _ _ => eq_refl)) as Hf.
      destruct (repositories _ !! repository_id), (repositories st !! repository_id);
        simpl in *; congruence.
    + pose proof (Hfields "completed" "analyzing" st
                    (fun r => inr (GitRepository.created_at r)) (fun _ _ => eq_refl)) as Hf.
      destruct (repositories _ !! repository_id), (repositories st !! repository_id);
        simpl in *; congruence.
Qed.

(** ** References *)

Lemma str_in_slash_cons (ch : ascii) (s : string) :
  Py.str_in "/" (String ch s) = Ascii.eqb ch "/" || Py.str_in "/" s.
Proof.
  rewrite str_in_unfold. destruct (String.prefix "/" (String ch s)) eqn:Hp.
  - apply prefix_spec in Hp as [after Hp]. rewrite append_cons, append_nil in Hp.
    injection Hp as -> _. reflexivity.
  - destruct (Ascii.eqb ch "/") eqn:E; [|reflexivity].
    apply Ascii.eqb_eq in E. subst ch.
    assert (String.prefix "/" (String "/" s) = true)
      by (apply prefix_spec; exists s; reflexivity).
    congruence.
Qed.

Lemma split_slash_plain (s : string) :
  Py.str_in "/" s = false -> Py.split_slash s = [s].
Proof.
  induction s as [|ch s IH]; [reflexivity|].
  rewrite str_in_slash_cons. intros H. apply orb_false_iff in H as [Hch Hs].
  simpl. now rewrite Hch, (IH Hs).
Qed.

Lemma split_slash_app (a b : string) :
  Py.str_in "/" a = false -> Py.split_slash (a ++ "/" ++ b) = a :: Py.split_slash b.
Proof.
  induction a as [|ch a IH]; intros H.
  - reflexivity.
  - rewrite str_in_slash_cons in H. apply orb_false_iff in H as [Hch Ha].
    rewrite append_cons. simpl. now rewrite Hch, (IH Ha).
Qed.

Lemma rstrip_slash_plain (s : string) :
  Py.str_in "/" s = false -> Py.rstrip_slash s = s.
Proof.
  induction s as [|ch s IH]; [reflexivity|].
  rewrite str_in_slash_cons. intros H. apply orb_false_iff in H as [Hch Hs].
  simpl. rewrite (IH Hs), Hch. now destruct s.
Qed.

Lemma rstrip_slash_app (a b : string) :
  Py.rstrip_slash b <> "" -> Py.rstrip_slash (a ++ b) = a ++ Py.rstrip_slash b.
Proof.
  intros Hb. induction a as [|ch a IH]; [reflexivity|].
  rewrite !append_cons. simpl. rewrite IH.
  destruct (a ++ Py.rstrip_slash b) eqn:E; [|reflexivity].
  destruct a; [|discriminate]. rewrite append_nil in E. congruence.
Qed.

Lemma rstrip_slash_trailing (s : string) :
  Py.str_in "/" s = false -> s <> "" -> Py.rstrip_slash (s ++ "/") = s.
Proof.
  induction s as [|ch s IH]; [congruence|].
  rewrite str_in_slash_cons. intros H _. apply orb_false_iff in H as [Hch Hs].
  rewrite append_cons. simpl. destruct s as [|ch' s].
  - simpl. now rewrite Hch.
  - rewrite (IH Hs) by discriminate. reflexivity.
Qed.

Lemma lstrip_slash_plain (s : string) :
  Py.str_in "/" s = false -> Py.lstrip_slash s = s.
Proof.
  destruct s as [|ch s]; [reflexivity|].
  rewrite str_in_slash_cons. intros H. apply orb_false_iff in H as [Hch _].
  simpl. destruct ch as [[] [] [] [] [] [] [] []]; try reflexivity. discriminate.
Qed.

Lemma lstrip_slash_app (a b : string) :
  Py.str_in "/" a = false -> a <> "" -> Py.lstrip_slash (a ++ b) = a ++ b.
Proof.
  destruct a as [|ch a]; [congruence|].
  rewrite str_in_slash_cons. intros H _. apply orb_false_iff in H as [Hch _].
  rewrite append_cons. simpl.
  destruct ch as [[] [] [] [] [] [] [] []]; try reflexivity. discriminate.
Qed.

(** A reference to a GitHub host whose path is an owner and a repository
    name, each without a slash and not empty, with or without a slash at
    the end, passes the guard and gives back that owner and that name. *)
Theorem reference_gives_owner_and_name (host owner repo_name : string) (trailing : bool) :
  Py.str_in "github.com" host = true ->
  Py.str_in "/" owner = false -> owner <> "" ->
  Py.str_in "/" repo_name = false -> repo_name <> "" ->
  parse_reference
    {| netloc := host;
       path := "/" ++ owner ++ "/" ++ repo_name ++ (if trailing then "/" else "") |}
  = Ok (owner, repo_name).
Proof.
  intros Hhost Ho Hone Hr Hrne. unfold parse_reference. cbn [netloc path].
  rewrite Hhost. cbn [negb].
  assert (Hstrip : Py.strip_slash
                     ("/" ++ owner ++ "/" ++ repo_name ++ (if trailing then "/" else ""))
                   = owner ++ "/" ++ repo_name).
  { unfold Py.strip_slash.
    change (Py.lstrip_slash ("/" ++ owner ++ "/" ++ repo_name
                             ++ (if trailing then "/" else "")))
      with (Py.lstrip_slash (owner ++ "/" ++ repo_name ++ (if trailing then "/" else ""))).
    rewrite lstrip_slash_app by assumption.
    assert (Hname : Py.rstrip_slash (repo_name ++ (if trailing then "/" else ""))
                    = repo_name).
    { destruct trailing.
      - now apply rstrip_slash_trailing.
      - replace (repo_name ++ "") with repo_name; [now apply rstrip_slash_plain|].
        clear. induction repo_name as [|ch s IH]; [reflexivity|].
        now rewrite append_cons, <- IH. }
    assert (Htail : Py.rstrip_slash ("/" ++ repo_name ++ (if trailing then "/" else ""))
                    = "/" ++ repo_name).
    { rewrite (rstrip_slash_app "/"); rewrite Hname; [reflexivity | assumption]. }
    rewrite rstrip_slash_app; rewrite Htail; [reflexivity | discriminate]. }
  rewrite Hstrip, split_slash_app, split_slash_plain by assumption. reflexivity.
Qed.

Lemma reference_gives_owner_and_name_witness :
  Py.str_in "github.com" "www.github.com" = true
  /\ parse_reference {| netloc := "www.github.com"; path := "/octo/demo/" |}
     = Ok ("octo", "demo").
Proof.
  split; [reflexivity|].
  apply (reference_gives_owner_and_name "www.github.com" "octo" "demo" true);
    (reflexivity || discriminate).
Defined.

(** ** Registration, run and listing together *)

Lemma run_stores (c : client) (depth : nat) (analysis_id : string) (now : Z)
  (repository_id : string) (parsed_url : ParseResult) (owner repo_name : string)
  (st : storage) (log : list string) :
  parse_reference parsed_url = Ok (owner, repo_name) ->
  exists a,
    fst (analyze_repository c depth analysis_id now undisturbed repository_id
           (Ok parsed_url) st log)
    = set_status repository_id "completed"
        (record_analysis analysis_id repository_id now a
           (set_status repository_id "analyzing" st)).
Proof.
  intros Hparse.
  destruct (analyze_github_repository_total depth c owner repo_name log)
    as (a & log' & Hfetch).
  exists a. now rewrite (analyze_repository_fetched _ _ _ _ _ _ _ _ _ _ _ _ _ Hparse Hfetch).
Qed.

(** After an undisturbed run on an accepted reference, for a repository
    that had no analysis before, the analyses listed for the repository are
    the one the run stored and no other. *)
Theorem run_lists_one_analysis (c : client) (depth : nat) (analysis_id : string) (now : Z)
  (repository_id : string) (parsed_url : ParseResult) (owner repo_name : string)
  (st : storage) (log : list string) :
  parse_reference parsed_url = Ok (owner, repo_name) ->
  (forall k a0, analyses st !! k = Some a0 ->
     RepositoryAnalysis.repository_id a0 <> repository_id) ->
  let st' :=
    fst (analyze_repository c depth analysis_id now undisturbed repository_id
           (Ok parsed_url) st log) in
  is_Some (get_analysis analysis_id st')
  /\ forall a, In a (get_analyses_by_repository repository_id st') <->
               get_analysis analysis_id st' = Some a.
Proof.
  intros Hparse Hnone st'.
  destruct (run_stores c depth analysis_id now repository_id parsed_url owner repo_name
              st log Hparse) as (a0 & Hst).
  fold st' in Hst. rewrite Hst. unfold get_analysis.
  assert (Hnew : analyses
                   (set_status repository_id "completed"
                      (record_analysis analysis_id repository_id now a0
                         (set_status repository_id "analyzing" st))) !! analysis_id
                 = Some {| RepositoryAnalysis.id := analysis_id;
                           RepositoryAnalysis.repository_id := repository_id;
                           RepositoryAnalysis.file_structure := a0.1.1.1.1;
                           RepositoryAnalysis.technologies_detected := a0.1.1.1.2;
                           RepositoryAnalysis.complexity_score := a0.2;
                           RepositoryAnalysis.vibe_patterns := a0.1.1.2;
                           RepositoryAnalysis.recommendations := a0.1.2;
                           RepositoryAnalysis.created_at := now |}).
  { unfold set_status at 1. cbn [analyses]. apply record_analysis_lookup. }
  split; [rewrite Hnew; eauto|].
  intros a. rewrite listed_iff. split.
  - intros (k & Hget & Hid). destruct (String.eqb_spec k analysis_id) as [-> | Hk];
      [exact Hget|].
    unfold set_status at 1 in Hget. cbn [analyses] in Hget.
    rewrite record_analysis_other in Hget by exact Hk.
    now destruct (Hnone _ _ Hget).
  - intros Hget. exists analysis_id. split; [exact Hget|].
    rewrite Hnew in Hget. injection Hget as <-. reflexivity.
Qed.

Lemma run_lists_one_analysis_witness :
  parse_reference octo_demo = Ok ("octo", "demo")
  /\ is_Some (get_analysis "a1"
                (fst (analyze_repository not_found 100 "a1" 7 undisturbed "r1"
                        (Ok octo_demo) one_registered []))).
Proof.
  split; [reflexivity|].
  refine (proj1 (run_lists_one_analysis not_found 100 "a1" 7 "r1" octo_demo "octo" "demo"
                   one_registered [] eq_refl _)).
  intros k a0 H. vm_compute in H. discriminate.
Defined.



(** An update served while the run is suspended on the fetch is kept: the
    run still ends [completed], and the record holds the new URL and name. *)
Theorem update_during_run (c : client) (depth : nat) (analysis_id : string)
  (updated now : Z) (repository_id url name : string) (description : option string)
  (parsed_url : ParseResult) (owner repo_name : string) (st : storage)
  (log : list string) :
  is_Some (repositories st !! repository_id) ->
  parse_reference parsed_url = Ok (owner, repo_name) ->
  let st' :=
    fst (analyze_repository c depth analysis_id now
           (updated_meanwhile repository_id updated url name description)
           repository_id (Ok parsed_url) st log) in
  status_of repository_id st' = Some "completed"
  /\ (GitRepository.url <$> get_repository repository_id st') = Some url
  /\ (GitRepository.name <$> get_repository repository_id st') = Some name
  /\ is_Some (get_analysis analysis_id st').
Proof.
  intros Hreg Hparse st'.
  destruct (analyze_github_repository_total depth c owner repo_name log)
    as (a & log' & Hfetch).
  unfold st'. rewrite (analyze_repository_fetched _ _ _ _ _ _ _ _ _ _ _ _ _ Hparse Hfetch).
  cbn [fst].
  destruct (set_status_present repository_id "analyzing" st Hreg) as [r Hr].
  unfold updated_meanwhile, update_repository. rewrite Hr.
  unfold status_of, get_repository, get_analysis.
  split; [|split; [|split]].
  - unfold set_status at 1. cbn [repositories].
    rewrite record_analysis_repositories. cbn [repositories].
    now rewrite lookup_alter_eq, lookup_insert_eq.
  - unfold set_status at 1. cbn [repositories].
    rewrite record_analysis_repositories. cbn [repositories].
    now rewrite lookup_alter_eq, lookup_insert_eq.
  - unfold set_status at 1. cbn [repositories].
    rewrite record_analysis_repositories. cbn [repositories].
    now rewrite lookup_alter_eq, lookup_insert_eq.
  - unfold set_status at 1. cbn [analyses]. rewrite record_analysis_lookup. eauto.
Qed.

Lemma update_during_run_witness :
  is_Some (repositories one_registered !! "r1")
  /\ parse_reference octo_demo = Ok ("octo", "demo")
  /\ status_of "r1"
       (fst (analyze_repository not_found 100 "a1" 7
               (updated_meanwhile "r1" 5 "https://github.com/octo/renamed" "renamed" None)
               "r1" (Ok octo_demo) one_registered [])) = Some "completed".
Proof.
  assert (Hreg : is_Some (repositories one_registered !! "r1"))
    by (vm_compute; eexists; reflexivity).
  split; [exact Hreg|]. split; [reflexivity|].
  exact (proj1 (update_during_run not_found 100 "a1" 5 7 "r1"
                  "https://github.com/octo/renamed" "renamed" None octo_demo
                  "octo" "demo" one_registered [] Hreg eq_refl)).
Defined.
